(** * The in-memory document store of [src/backend/database.py]

    A shallow embedding of the [MockCollection] class that
    [_setup_mock_db] installs when MongoDB cannot be reached, of the seed
    data and of [init_database], followed by the properties of the
    specification that concern them.

    Modelling choices.
    - Python values are the JSON-like ones the module handles: [None],
      integers, strings, lists and string-keyed dictionaries.  Booleans as
      document values and floats are left out.  A [str] is a Rocq [string];
      the seed data is ASCII, where one character is one byte and Python's
      code-point order is the byte order of [String.compare].
    - A Python [dict] keeps insertion order, and [find] and [find_one]
      traverse in that order: dictionaries are association lists, a key
      assigned again keeps its place, a new key goes last.
    - Python operations that can raise are functions into [result]; the two
      methods that mutate ([insert_one], [update_one]) return the collection
      they leave behind together with their outcome, so that what was
      mutated before an exception stays mutated.
    - Documents and the lists in them are held by value: the model
      covers stores in which no document object is reachable under two
      keys and no list object is held by two documents or two fields.
      Where the code mutates a list in place (the [append] of [$push]),
      the properties stated for arbitrary stores speak of the field that
      was pushed to only; the seeded store, whose lists all come from
      distinct literals, is described whole.
    - Of the module state, [_client] and the two collection handles are
      kept; [init_database] is modelled in the processes where MongoDB is
      not reached, with the place where the attempt raises as an
      argument. *)

From Stdlib Require Import List String Ascii ZArith Bool Lia Sorted.
Import ListNotations.
Local Open Scope string_scope.
Local Open Scope list_scope.

(** ** Outcomes of Python code *)

Inductive exn : Type :=
| TypeError
| AttributeError
| KeyError.

Inductive result (A : Type) : Type :=
| Ok (a : A)
| Raise (e : exn).
Arguments Ok {A} a.
Arguments Raise {A} e.

Definition bind {A B : Type} (m : result A) (f : A -> result B) : result B :=
  match m with
  | Ok a => f a
  | Raise e => Raise e
  end.

Declare Scope py_scope.
Delimit Scope py_scope with py.
Notation "x <- m ;; k" := (bind m (fun x => k))
  (at level 61, m at next level, right associativity) : py_scope.
Local Open Scope py_scope.

(** ** Insertion-ordered dictionaries *)

Section Assoc.
Context {K V : Type}.
Variable eqb : K -> K -> bool.

(** [d.get(k)] without default, as an option. *)
Fixpoint assoc_get (d : list (K * V)) (k : K) : option V :=
  match d with
  | [] => None
  | (k', v) :: d' => if eqb k' k then Some v else assoc_get d' k
  end.

(** [k in d]. *)
Definition assoc_mem (d : list (K * V)) (k : K) : bool :=
  match assoc_get d k with
  | Some _ => true
  | None => false
  end.

(** [d[k] = v]: an existing key keeps its position, a new one is
    appended. *)
Fixpoint assoc_set (d : list (K * V)) (k : K) (v : V) : list (K * V) :=
  match d with
  | [] => [(k, v)]
  | (k', v') :: d' =>
      if eqb k' k then (k', v) :: d' else (k', v') :: assoc_set d' k v
  end.
End Assoc.

(** ** Python values *)

#[warnings="-register-all"]
Inductive value : Type :=
| VNone
| VInt (z : Z)
| VStr (s : string)
| VList (l : list value)
| VDict (d : list (string * value)).

(** A document, a query, an update and a pipeline stage are all [dict]s. *)
Definition dict : Type := list (string * value).

Definition dict_get (d : dict) (k : string) : option value :=
  assoc_get String.eqb d k.

Definition dict_mem (d : dict) (k : string) : bool :=
  assoc_mem String.eqb d k.

Definition dict_set (d : dict) (k : string) (v : value) : dict :=
  assoc_set String.eqb d k v.

(** [d.get(k)]: [None] when the key is missing. *)
Definition get (d : dict) (k : string) : value :=
  match dict_get d k with
  | Some v => v
  | None => VNone
  end.

(** [{**d, **e}]: the items of [e] assigned into [d] in order. *)
Definition dict_update (d e : dict) : dict :=
  fold_left (fun acc kv => dict_set acc (fst kv) (snd kv)) e d.

Module Py.

(** Truth value of an object in a condition. *)
Definition truthy (v : value) : bool :=
  match v with
  | VNone => false
  | VInt z => negb (Z.eqb z 0)
  | VStr s => negb (String.eqb s EmptyString)
  | VList l => match l with [] => false | _ => true end
  | VDict d => match d with [] => false | _ => true end
  end.

Definition is_none (v : value) : bool :=
  match v with
  | VNone => true
  | _ => false
  end.

(** [a == b].  Lists are equal element by element; dictionaries are equal
    when they have the same number of keys and every key of the first
    maps to an equal value in the second, whatever the order. *)
Fixpoint eq (a b : value) {struct a} : bool :=
  match a, b with
  | VNone, VNone => true
  | VInt x, VInt y => Z.eqb x y
  | VStr x, VStr y => String.eqb x y
  | VList xs, VList ys =>
      (fix eq_list (xs ys : list value) {struct xs} : bool :=
         match xs, ys with
         | [], [] => true
         | x :: xs', y :: ys' => eq x y && eq_list xs' ys'
         | _, _ => false
         end) xs ys
  | VDict xs, VDict ys =>
      Nat.eqb (List.length xs) (List.length ys) &&
      (fix eq_items (xs : list (string * value)) {struct xs} : bool :=
         match xs with
         | [] => true
         | (k, v) :: xs' =>
             match assoc_get String.eqb ys k with
             | Some w => eq v w
             | None => false
             end && eq_items xs'
         end) xs
  | _, _ => false
  end.

(** [a != b]. *)
Definition ne (a b : value) : bool := negb (eq a b).

(** [a < b]: defined between two integers, two strings and two lists
    (lexicographic: the first unequal pair decides); [TypeError]
    otherwise. *)
Fixpoint lt (a b : value) {struct a} : result bool :=
  match a, b with
  | VInt x, VInt y => Ok (Z.ltb x y)
  | VStr x, VStr y => Ok (String.ltb x y)
  | VList xs, VList ys =>
      (fix lt_list (xs ys : list value) {struct xs} : result bool :=
         match xs, ys with
         | [], [] => Ok false
         | [], _ :: _ => Ok true
         | _ :: _, [] => Ok false
         | x :: xs', y :: ys' =>
             if eq x y then lt_list xs' ys' else lt x y
         end) xs ys
  | _, _ => Raise TypeError
  end.

(** [a > b] is the reflected [b < a] for these types. *)
Definition gt (a b : value) : result bool := lt b a.

(** Values a [dict] or [set] accepts as elements. *)
Definition hashable (v : value) : bool :=
  match v with
  | VNone | VInt _ | VStr _ => true
  | VList _ | VDict _ => false
  end.

(** [t in s] for two strings. *)
Fixpoint substring_of (t s : string) : bool :=
  String.prefix t s ||
  match s with
  | EmptyString => false
  | String _ s' => substring_of t s'
  end.

(** [item in container]. *)
Definition contains (container item : value) : result bool :=
  match container with
  | VList l => Ok (existsb (fun x => eq x item) l)
  | VDict d =>
      match item with
      | VStr k => Ok (dict_mem d k)
      | VNone | VInt _ => Ok false
      | VList _ | VDict _ => Raise TypeError
      end
  | VStr s =>
      match item with
      | VStr t => Ok (substring_of t s)
      | _ => Raise TypeError
      end
  | VNone | VInt _ => Raise TypeError
  end.

(** [v[k]] for a string [k]. *)
Definition getitem (v : value) (k : string) : result value :=
  match v with
  | VDict d =>
      match dict_get d k with
      | Some x => Ok x
      | None => Raise KeyError
      end
  | _ => Raise TypeError
  end.

(** [v.get(k)]: only dictionaries have the method. *)
Definition get_method (v : value) (k : string) : result value :=
  match v with
  | VDict d => Ok (get d k)
  | _ => Raise AttributeError
  end.

(** [v.items()]. *)
Definition items (v : value) : result dict :=
  match v with
  | VDict d => Ok d
  | _ => Raise AttributeError
  end.

Fixpoint chars (s : string) : list value :=
  match s with
  | EmptyString => []
  | String c s' => VStr (String c EmptyString) :: chars s'
  end.

(** The elements [for x in v] goes through. *)
Definition iter (v : value) : result (list value) :=
  match v with
  | VList l => Ok l
  | VStr s => Ok (chars s)
  | VDict d => Ok (map (fun kv => VStr (fst kv)) d)
  | VNone | VInt _ => Raise TypeError
  end.

(** [any(f(x) for x in l)]: stops at the first true element. *)
Fixpoint any (f : value -> result bool) (l : list value) : result bool :=
  match l with
  | [] => Ok false
  | x :: l' => b <- f x ;; if b then Ok true else any f l'
  end.

(** [s.add(x)] on a set kept as a duplicate-free list. *)
Definition set_add (s : list value) (x : value) : result (list value) :=
  if hashable x then
    Ok (if existsb (fun y => eq y x) s then s else s ++ [x])
  else Raise TypeError.

(** Insertion into an ascending list, with [<] as the only comparison. *)
Fixpoint insert_sorted (x : value) (l : list value) : result (list value) :=
  match l with
  | [] => Ok [x]
  | y :: l' =>
      b <- lt x y ;;
      if b then Ok (x :: y :: l')
      else r <- insert_sorted x l' ;; Ok (y :: r)
  end.

(** [sorted(s)] for a set [s].  The elements of a set are pairwise
    unequal, so the ascending order is unique; a set of two or more
    elements that are not all integers or all strings raises [TypeError]
    under any comparison sort, as it does here. *)
Fixpoint sorted (s : list value) : result (list value) :=
  match s with
  | [] => Ok []
  | x :: s' => r <- sorted s' ;; insert_sorted x r
  end.

End Py.

(** ** Code that mutates: state and outcome together *)

Definition mut (S A : Type) : Type := S -> S * result A.

Definition mret {S A : Type} (a : A) : mut S A := fun s => (s, Ok a).

Definition mbind {S A B : Type} (m : mut S A) (f : A -> mut S B) : mut S B :=
  fun s =>
    let (s1, r) := m s in
    match r with
    | Ok a => f a s1
    | Raise e => (s1, Raise e)
    end.

(** An expression that only reads. *)
Definition mlift {S A : Type} (f : S -> result A) : mut S A :=
  fun s => (s, f s).

Notation "x <~ m ;; k" := (mbind m (fun x => k))
  (at level 61, m at next level, right associativity) : py_scope.

(** [for x in l: body(x)] *)
Fixpoint mfor {S A : Type} (l : list A) (body : A -> mut S unit) : mut S unit :=
  match l with
  | [] => mret tt
  | x :: l' => _ <~ body x ;; mfor l' body
  end.

(** The same loop for a body that only computes. *)
Fixpoint foldM {A B : Type} (f : B -> A -> result B) (l : list A) (acc : B)
  : result B :=
  match l with
  | [] => Ok acc
  | x :: l' => acc' <- f acc x ;; foldM f l' acc'
  end.

(** ** class MockCollection *)

(** [self.data]: identifier to document, in insertion order. *)
Record MockCollection : Type := { data : list (value * dict) }.

(** [__init__]: [self.data = {}] *)
Definition MockCollection_init : MockCollection := {| data := [] |}.

(** [self.data.values()] *)
Definition values (self : MockCollection) : list dict := map snd (data self).

(** *** find_one *)

(** The inner [for k, v in query.items()] of [find_one]: [true] when the
    loop ends without [break], which is when its [else] runs. *)
Fixpoint no_break (doc query : dict) : bool :=
  match query with
  | [] => true
  | (k, v) :: query' =>
      if Py.ne (get doc k) v then false else no_break doc query'
  end.

(** ["_id" in query and doc.get("_id") == query["_id"]] *)
Definition id_hit (doc query : dict) : bool :=
  match dict_get query "_id" with
  | Some i => Py.eq (get doc "_id") i
  | None => false
  end.

Fixpoint find_one_loop (items : list (value * dict)) (query : dict)
  : option dict :=
  match items with
  | [] => None
  | (key, doc) :: items' =>
      if id_hit doc query then Some doc
      else if no_break doc query then Some doc
      else find_one_loop items' query
  end.

Definition find_one (self : MockCollection) (query : dict) : option dict :=
  find_one_loop (data self) query.

(** *** find *)

(** One turn of [for k, v in query.items()] in [find]: [Ok false] is
    [matches = False; break], [Ok true] goes on to the next item. *)
Definition clause (doc : dict) (k : string) (v : value) : result bool :=
  is_days <- (if String.eqb k "schedule_details.days"
              then Py.contains v (VStr "$in") else Ok false) ;;
  if is_days then
    if negb (dict_mem doc "schedule_details") then Ok false
    else
      d <- Py.get_method (get doc "schedule_details") "days" ;;
      if Py.is_none d then Ok false
      else
        candidates <- Py.getitem v "$in" ;;
        candidates <- Py.iter candidates ;;
        hit <- Py.any (fun day =>
                  days <- Py.getitem (get doc "schedule_details") "days" ;;
                  Py.contains days day) candidates ;;
        Ok hit
  else
  is_start <- (if String.eqb k "schedule_details.start_time"
               then Py.contains v (VStr "$gte") else Ok false) ;;
  if is_start then
    if negb (dict_mem doc "schedule_details") then Ok false
    else
      t <- Py.get_method (get doc "schedule_details") "start_time" ;;
      if Py.is_none t then Ok false
      else
        t <- Py.getitem (get doc "schedule_details") "start_time" ;;
        bound <- Py.getitem v "$gte" ;;
        early <- Py.lt t bound ;;
        Ok (negb early)
  else
  is_end <- (if String.eqb k "schedule_details.end_time"
             then Py.contains v (VStr "$lte") else Ok false) ;;
  if is_end then
    if negb (dict_mem doc "schedule_details") then Ok false
    else
      t <- Py.get_method (get doc "schedule_details") "end_time" ;;
      if Py.is_none t then Ok false
      else
        t <- Py.getitem (get doc "schedule_details") "end_time" ;;
        bound <- Py.getitem v "$lte" ;;
        late <- Py.gt t bound ;;
        Ok (negb late)
  else
    Ok (negb (Py.ne (get doc k) v)).

(** The value of [matches] when the inner loop is left. *)
Fixpoint matches (doc query : dict) : result bool :=
  match query with
  | [] => Ok true
  | (k, v) :: query' =>
      b <- clause doc k v ;;
      if b then matches doc query' else Ok false
  end.

Fixpoint find_loop (docs : list dict) (query : dict) : result (list dict) :=
  match docs with
  | [] => Ok []
  | doc :: docs' =>
      m <- matches doc query ;;
      results <- find_loop docs' query ;;
      Ok (if m then doc :: results else results)
  end.

(** [find(query=None)] *)
Definition find (self : MockCollection) (query : option dict)
  : result (list dict) :=
  let query := match query with None => [] | Some q => q end in
  find_loop (values self) query.

(** *** count_documents *)

Definition count_documents (self : MockCollection) (query : option dict)
  : result Z :=
  r <- find self query ;; Ok (Z.of_nat (List.length r)).

(** *** insert_one *)

(** [self.data[doc.get("_id")] = doc]; a key that cannot be hashed raises
    before anything is stored. *)
Definition insert_one (doc : dict) : mut MockCollection unit :=
  fun self =>
    let key := get doc "_id" in
    if Py.hashable key
    then ({| data := assoc_set Py.eq (data self) key doc |}, Ok tt)
    else (self, Raise TypeError).

(** *** update_one *)

Record Result : Type := { modified_count : Z }.

(** [for k, v in update["$push"].items()], on the document found.  The
    [append] is by value: the list is taken to be held by this field of
    this document alone. *)
Fixpoint push_items (items : dict) : mut dict unit :=
  match items with
  | [] => mret tt
  | (k, v) :: items' =>
      fun doc =>
        let doc := if negb (dict_mem doc k) then dict_set doc k (VList [])
                   else doc in
        match get doc k with
        | VList l => push_items items' (dict_set doc k (VList (l ++ [v])))
        | _ => (doc, Raise AttributeError)
        end
  end.

(** [for k, v in update["$pull"].items()], on the document found. *)
Fixpoint pull_items (items : dict) (doc : dict) : dict :=
  match items with
  | [] => doc
  | (k, v) :: items' =>
      let doc :=
        match dict_get doc k with
        | Some (VList l) =>
            dict_set doc k (VList (filter (fun x => Py.ne x v) l))
        | _ => doc
        end in
      pull_items items' doc
  end.

(** The body run on the first document whose identifier matches. *)
Definition apply_update (update : dict) : mut dict unit :=
  if dict_mem update "$push" then
    items <~ mlift (fun _ => Py.items (get update "$push")) ;;
    push_items items
  else if dict_mem update "$pull" then
    items <~ mlift (fun _ => Py.items (get update "$pull")) ;;
    fun doc => (pull_items items doc, Ok tt)
  else mret tt.

Fixpoint update_one_loop (items : list (value * dict)) (query update : dict)
  : list (value * dict) * result Result :=
  match items with
  | [] => ([], Ok {| modified_count := 0 |})
  | (key, doc) :: items' =>
      if Py.eq (get doc "_id") (get query "_id") then
        let (doc', r) := apply_update update doc in
        ((key, doc') :: items',
         _ <- r ;; Ok {| modified_count := 1 |})
      else
        let (rest, r) := update_one_loop items' query update in
        ((key, doc) :: rest, r)
  end.

Definition update_one (query update : dict) : mut MockCollection Result :=
  fun self =>
    let (items, r) := update_one_loop (data self) query update in
    ({| data := items |}, r).

(** *** aggregate *)

(** The body of [for doc in self.data.values()], on the set [days]. *)
Definition add_days (days : list value) (doc : dict) : result (list value) :=
  if dict_mem doc "schedule_details" then
    has <- Py.contains (get doc "schedule_details") (VStr "days") ;;
    if has then
      ds <- Py.getitem (get doc "schedule_details") "days" ;;
      ds <- Py.iter ds ;;
      foldM Py.set_add ds days
    else Ok days
  else Ok days.

Definition aggregate (self : MockCollection) (pipeline : list dict)
  : result (list dict) :=
  if (2 <=? List.length pipeline)%nat
     && Py.truthy (get (nth 0 pipeline []) "$unwind")
     && Py.truthy (get (nth 1 pipeline []) "$group")
  then
    days <- foldM add_days (values self) [] ;;
    days <- Py.sorted days ;;
    Ok (map (fun day => [("_id", day)]) days)
  else Ok [].

(** ** Seed data *)

(** One value of the dictionary literal in [_get_initial_activities]; the
    fields come in the order of the source. *)
Definition activity (description schedule : string) (days : list string)
    (start_time end_time : string) (max_participants : Z)
    (participants : list string) : value :=
  VDict
    [ ("description", VStr description);
      ("schedule", VStr schedule);
      ("schedule_details",
        VDict [ ("days", VList (map VStr days));
                ("start_time", VStr start_time);
                ("end_time", VStr end_time) ]);
      ("max_participants", VInt max_participants);
      ("participants", VList (map VStr participants)) ].

Definition _get_initial_activities : dict :=
  [ ("Chess Club",
      activity "Learn strategies and compete in chess tournaments"
        "Mondays and Fridays, 3:15 PM - 4:45 PM"
        ["Monday"; "Friday"] "15:15" "16:45" 12
        ["michael@mergington.edu"; "daniel@mergington.edu"]);
    ("Programming Class",
      activity "Learn programming fundamentals and build software projects"
        "Tuesdays and Thursdays, 7:00 AM - 8:00 AM"
        ["Tuesday"; "Thursday"] "07:00" "08:00" 20
        ["emma@mergington.edu"; "sophia@mergington.edu"]);
    ("Morning Fitness",
      activity "Early morning physical training and exercises"
        "Mondays, Wednesdays, Fridays, 6:30 AM - 7:45 AM"
        ["Monday"; "Wednesday"; "Friday"] "06:30" "07:45" 30
        ["john@mergington.edu"; "olivia@mergington.edu"]);
    ("Soccer Team",
      activity "Join the school soccer team and compete in matches"
        "Tuesdays and Thursdays, 3:30 PM - 5:30 PM"
        ["Tuesday"; "Thursday"] "15:30" "17:30" 22
        ["liam@mergington.edu"; "noah@mergington.edu"]);
    ("Basketball Team",
      activity "Practice and compete in basketball tournaments"
        "Wednesdays and Fridays, 3:15 PM - 5:00 PM"
        ["Wednesday"; "Friday"] "15:15" "17:00" 15
        ["ava@mergington.edu"; "mia@mergington.edu"]);
    ("Art Club",
      activity "Explore various art techniques and create masterpieces"
        "Thursdays, 3:15 PM - 5:00 PM"
        ["Thursday"] "15:15" "17:00" 15
        ["amelia@mergington.edu"; "harper@mergington.edu"]);
    ("Drama Club",
      activity "Act, direct, and produce plays and performances"
        "Mondays and Wednesdays, 3:30 PM - 5:30 PM"
        ["Monday"; "Wednesday"] "15:30" "17:30" 20
        ["ella@mergington.edu"; "scarlett@mergington.edu"]);
    ("Math Club",
      activity "Solve challenging problems and prepare for math competitions"
        "Tuesdays, 7:15 AM - 8:00 AM"
        ["Tuesday"] "07:15" "08:00" 10
        ["james@mergington.edu"; "benjamin@mergington.edu"]);
    ("Debate Team",
      activity "Develop public speaking and argumentation skills"
        "Fridays, 3:30 PM - 5:30 PM"
        ["Friday"] "15:30" "17:30" 12
        ["charlotte@mergington.edu"; "amelia@mergington.edu"]);
    ("Weekend Robotics Workshop",
      activity "Build and program robots in our state-of-the-art workshop"
        "Saturdays, 10:00 AM - 2:00 PM"
        ["Saturday"] "10:00" "14:00" 15
        ["ethan@mergington.edu"; "oliver@mergington.edu"]);
    ("Science Olympiad",
      activity
        "Weekend science competition preparation for regional and state events"
        "Saturdays, 1:00 PM - 4:00 PM"
        ["Saturday"] "13:00" "16:00" 18
        ["isabella@mergington.edu"; "lucas@mergington.edu"]);
    ("Sunday Chess Tournament",
      activity "Weekly tournament for serious chess players with rankings"
        "Sundays, 2:00 PM - 5:00 PM"
        ["Sunday"] "14:00" "17:00" 16
        ["william@mergington.edu"; "jacob@mergington.edu"]) ].

(** ** Module state and [init_database] *)

(** The MongoDB client object; only whether [_client] is [None] matters
    to the code modelled here. *)
Inductive MongoClient : Type := mongo_client.

(** The module-level names: the client and the two collection handles,
    all [None] when the module is loaded.  ([_db] is assigned next to
    [_client] and never read.) *)
Record Globals : Type := {
  _client : option MongoClient;
  activities_collection : option MockCollection;
  teachers_collection : option MockCollection
}.

Definition uninitialized : Globals :=
  {| _client := None;
     activities_collection := None;
     teachers_collection := None |}.

(** [_setup_mock_db] assigns the two handles and nothing else. *)
Definition _setup_mock_db : mut Globals unit :=
  fun g =>
    ({| _client := _client g;
        activities_collection := Some MockCollection_init;
        teachers_collection := Some MockCollection_init |}, Ok tt).

(** Where the [try] block of [_init_db] raises when MongoDB is not
    reached: in [MongoClient(...)], before [_client] is assigned, or in
    the ping, after it.  A process in which MongoDB answers binds the
    handles to collections of the external database, which are outside
    this development. *)
Inductive failure : Type :=
| constructor_raises
| ping_raises.

(** [_init_db]: nothing happens once [_client] is set; otherwise the
    attempt is made, it raises as [how] says, and the [except] branch
    installs the in-memory collections. *)
Definition _init_db (how : failure) : mut Globals unit :=
  fun g =>
    match _client g with
    | None =>
        match how with
        | constructor_raises => _setup_mock_db g
        | ping_raises =>
            _setup_mock_db
              {| _client := Some mongo_client;
                 activities_collection := activities_collection g;
                 teachers_collection := teachers_collection g |}
        end
    | Some _ => (g, Ok tt)
    end.

(** A method call on [activities_collection]; calling a method on [None]
    raises [AttributeError]. *)
Definition on_activities {A : Type} (m : mut MockCollection A)
  : mut Globals A :=
  fun g =>
    match activities_collection g with
    | None => (g, Raise AttributeError)
    | Some c =>
        let (c', r) := m c in
        ({| _client := _client g;
            activities_collection := Some c';
            teachers_collection := teachers_collection g |}, r)
    end.

Definition on_teachers {A : Type} (m : mut MockCollection A)
  : mut Globals A :=
  fun g =>
    match teachers_collection g with
    | None => (g, Raise AttributeError)
    | Some c =>
        let (c', r) := m c in
        ({| _client := _client g;
            activities_collection := activities_collection g;
            teachers_collection := Some c' |}, r)
    end.

(** [init_database] in its three blocks. *)

(** [if activities_collection is None or teachers_collection is None:
    _init_db()] *)
Definition ensure_initialized (how : failure) : mut Globals unit :=
  fun g =>
    match activities_collection g, teachers_collection g with
    | Some _, Some _ => mret tt g
    | _, _ => _init_db how g
    end.

(** [{"_id": name, **details}] *)
Definition activity_document (name : string) (details : value)
  : result dict :=
  match details with
  | VDict fields => Ok (dict_update [("_id", VStr name)] fields)
  | _ => Raise TypeError
  end.

(** [if activities_collection.count_documents({}) == 0: ...] *)
Definition seed_activities : mut Globals unit :=
  n <~ on_activities (mlift (fun c => count_documents c (Some []))) ;;
  if Z.eqb n 0 then
    mfor _get_initial_activities (fun item =>
      doc <~ mlift (fun _ => activity_document (fst item) (snd item)) ;;
      on_activities (insert_one doc))
  else mret tt.

Section Seeding.

(** [hash_password] is the Argon2 hasher of an external package: any
    function from the plaintext to the stored string.  (The real one
    salts each call; [init_database] hashes each plaintext once.) *)
Variable hash_password : string -> string.

Definition _get_initial_teachers : list dict :=
  [ [ ("username", VStr "mrodriguez");
      ("display_name", VStr "Ms. Rodriguez");
      ("password", VStr (hash_password "art123"));
      ("role", VStr "teacher") ];
    [ ("username", VStr "mchen");
      ("display_name", VStr "Mr. Chen");
      ("password", VStr (hash_password "chess456"));
      ("role", VStr "teacher") ];
    [ ("username", VStr "principal");
      ("display_name", VStr "Principal Martinez");
      ("password", VStr (hash_password "admin789"));
      ("role", VStr "admin") ] ].

(** [{"_id": teacher["username"], **teacher}] *)
Definition teacher_document (teacher : dict) : result dict :=
  username <- Py.getitem (VDict teacher) "username" ;;
  Ok (dict_update [("_id", username)] teacher).

(** [if teachers_collection.count_documents({}) == 0: ...] *)
Definition seed_teachers : mut Globals unit :=
  n <~ on_teachers (mlift (fun c => count_documents c (Some []))) ;;
  if Z.eqb n 0 then
    mfor _get_initial_teachers (fun teacher =>
      doc <~ mlift (fun _ => teacher_document teacher) ;;
      on_teachers (insert_one doc))
  else mret tt.

Definition init_database (how : failure) : mut Globals unit :=
  _ <~ ensure_initialized how ;;
  _ <~ seed_activities ;;
  seed_teachers.

End Seeding.

(** The activities collection once [init_database] has run in a process
    that had not touched the database before.  The teachers block comes
    after the activities block and does not touch this collection, and
    the collection is the same wherever the connection attempt raised (see
    [init_database_activities]). *)
Definition seeded_activities : MockCollection :=
  match activities_collection
          (fst ((_ <~ ensure_initialized ping_raises ;; seed_activities)
                  uninitialized))
  with
  | Some c => c
  | None => MockCollection_init
  end.

(** * Properties *)

(** ** Equality on identifiers *)

(** On a value that can be a dictionary key, [==] is identity. *)
Lemma eq_hashable_iff (a k : value) :
  Py.hashable k = true -> (Py.eq a k = true <-> a = k).
Proof.
  destruct k; simpl; try discriminate; intros _; destruct a; simpl;
    split; try discriminate; try reflexivity.
  - intros H. apply Z.eqb_eq in H. now subst.
  - intros H. injection H as ->. apply Z.eqb_refl.
  - intros H. apply String.eqb_eq in H. now subst.
  - intros H. injection H as ->. apply String.eqb_refl.
Qed.

Lemma eq_hashable_refl (k : value) : Py.hashable k = true -> Py.eq k k = true.
Proof. intros H. now apply eq_hashable_iff. Qed.

(** ** The store as a dictionary *)

Section StoreLemmas.
Variable V : Type.
Implicit Types (d : list (value * V)) (k : value).

Lemma store_get_set_same d k v :
  Py.hashable k = true ->
  assoc_get Py.eq (assoc_set Py.eq d k v) k = Some v.
Proof.
  intros H. induction d as [|[k' v'] d IH]; simpl.
  - now rewrite eq_hashable_refl.
  - destruct (Py.eq k' k) eqn:E; simpl; now rewrite E.
Qed.

Lemma store_get_set_other d k v k' :
  Py.hashable k = true -> k' <> k ->
  assoc_get Py.eq (assoc_set Py.eq d k v) k' = assoc_get Py.eq d k'.
Proof.
  intros H N.
  assert (E : Py.eq k k' = false).
  { destruct (Py.eq k k') eqn:E; [|reflexivity].
    destruct k; try discriminate; destruct k'; simpl in E;
      try discriminate.
    - now contradiction N.
    - apply Z.eqb_eq in E. now subst.
    - apply String.eqb_eq in E. now subst. }
  induction d as [|[x w] d IH]; simpl.
  - now rewrite E.
  - destruct (Py.eq x k) eqn:Ex; simpl.
    + apply eq_hashable_iff in Ex; [subst x | assumption].
      now rewrite E.
    + now rewrite IH.
Qed.

Lemma store_set_present d k v :
  assoc_mem Py.eq d k = true ->
  map fst (assoc_set Py.eq d k v) = map fst d.
Proof.
  unfold assoc_mem. induction d as [|[x w] d IH]; simpl.
  - discriminate.
  - destruct (Py.eq x k) eqn:E; simpl; intros H.
    + reflexivity.
    + now rewrite IH.
Qed.

Lemma store_set_fresh d k v :
  assoc_mem Py.eq d k = false ->
  assoc_set Py.eq d k v = d ++ [(k, v)].
Proof.
  unfold assoc_mem. induction d as [|[x w] d IH]; simpl.
  - reflexivity.
  - destruct (Py.eq x k) eqn:E; simpl; intros H.
    + discriminate.
    + now rewrite IH.
Qed.
End StoreLemmas.

(** ** update_one *)

(** No document of the collection carries the identifier [i]. *)
Definition absent (self : MockCollection) (i : value) : Prop :=
  forall doc, In doc (values self) -> Py.eq (get doc "_id") i = false.

(** Some document of the collection carries the identifier [i]. *)
Definition present (self : MockCollection) (i : value) : Prop :=
  exists doc, In doc (values self) /\ Py.eq (get doc "_id") i = true.

Lemma update_one_loop_absent items query update :
  (forall doc, In doc (map snd items) ->
               Py.eq (get doc "_id") (get query "_id") = false) ->
  update_one_loop items query update = (items, Ok {| modified_count := 0 |}).
Proof.
  induction items as [|[key doc] items IH]; simpl; intros H.
  - reflexivity.
  - rewrite (H doc) by now left.
    rewrite IH by (intros d Hd; apply H; now right).
    reflexivity.
Qed.

(** C4.  An [update_one] whose filter names an identifier that no document
    of the collection has reports a modified count of 0 and returns the
    collection as it was, whatever the update document says. *)
Theorem update_one_missing_id (self : MockCollection) (query update : dict) :
  absent self (get query "_id") ->
  update_one query update self = (self, Ok {| modified_count := 0 |}).
Proof.
  intros H. unfold update_one.
  rewrite update_one_loop_absent by exact H.
  now destruct self.
Qed.

Lemma apply_update_no_operator update doc :
  dict_mem update "$push" = false ->
  dict_mem update "$pull" = false ->
  apply_update update doc = (doc, Ok tt).
Proof.
  intros Hpush Hpull. unfold apply_update. now rewrite Hpush, Hpull.
Qed.

Lemma update_one_loop_no_operator items query update :
  dict_mem update "$push" = false ->
  dict_mem update "$pull" = false ->
  (exists doc, In doc (map snd items) /\
               Py.eq (get doc "_id") (get query "_id") = true) ->
  update_one_loop items query update = (items, Ok {| modified_count := 1 |}).
Proof.
  intros Hpush Hpull. induction items as [|[key doc] items IH]; simpl.
  - intros [d [[] _]].
  - intros [d [Hin Hd]].
    destruct (Py.eq (get doc "_id") (get query "_id")) eqn:E.
    + now rewrite apply_update_no_operator.
    + destruct Hin as [<- | Hin]; [congruence|].
      rewrite IH by (exists d; now split). reflexivity.
Qed.

(** C10.  When the filter's identifier matches a document and the update
    document has neither a [$push] nor a [$pull] entry, [update_one]
    reports a modified count of 1 and every document stays as it was. *)
Theorem update_one_no_operator (self : MockCollection) (query update : dict) :
  present self (get query "_id") ->
  dict_mem update "$push" = false ->
  dict_mem update "$pull" = false ->
  update_one query update self = (self, Ok {| modified_count := 1 |}).
Proof.
  intros H Hpush Hpull. unfold update_one.
  rewrite update_one_loop_no_operator by assumption.
  now destruct self.
Qed.

(** ** find_one *)

(** A filter that carries [_id] breaks out of the field-by-field loop on
    every document whose identifier differs. *)
Lemma no_break_other_id doc query i :
  dict_get query "_id" = Some i ->
  Py.eq (get doc "_id") i = false ->
  no_break doc query = false.
Proof.
  unfold dict_get. induction query as [|[k v] query IH]; simpl.
  - discriminate.
  - destruct (String.eqb_spec k "_id") as [-> | N]; intros Hq Hd.
    + injection Hq as ->. unfold Py.ne. now rewrite Hd.
    + destruct (Py.ne (get doc k) v); [reflexivity | now apply IH].
Qed.

Lemma find_one_loop_by_id items query i :
  dict_get query "_id" = Some i ->
  find_one_loop items query =
    List.find (fun doc => Py.eq (get doc "_id") i) (map snd items).
Proof.
  intros Hq. induction items as [|[key doc] items IH]; simpl.
  - reflexivity.
  - unfold id_hit. rewrite Hq.
    destruct (Py.eq (get doc "_id") i) eqn:E.
    + reflexivity.
    + now rewrite (no_break_other_id doc query i).
Qed.

(** C9.  For a filter that carries [_id], [find_one] is the lookup by
    identifier: it returns the first document in store order whose
    identifier equals the filter's [_id], whatever the other entries of the
    filter are, and [None] when no document has that identifier. *)
Theorem find_one_id_lookup (self : MockCollection) (query : dict) (i : value) :
  dict_get query "_id" = Some i ->
  find_one self query =
    List.find (fun doc => Py.eq (get doc "_id") i) (values self)
  /\ (present self i ->
      exists doc, find_one self query = Some doc /\
                  In doc (values self) /\ Py.eq (get doc "_id") i = true)
  /\ (absent self i -> find_one self query = None).
Proof.
  intros Hq. unfold find_one, values.
  rewrite (find_one_loop_by_id _ _ i Hq). split; [reflexivity|]. split.
  - intros [doc [Hin Hd]].
    destruct (List.find _ (map snd (data self))) as [d|] eqn:F.
    + exists d. split; [reflexivity|]. now apply find_some in F.
    + now rewrite (find_none _ _ F doc Hin) in Hd.
  - intros H.
    destruct (List.find _ (map snd (data self))) as [d|] eqn:F;
      [|reflexivity].
    apply find_some in F. destruct F as [Hin Hd].
    now rewrite (H d Hin) in Hd.
Qed.

(** ** insert_one *)

(** C7 (amended).  For a document whose identifier can be a dictionary key
    ([None], an integer or a string), [insert_one] returns normally, the
    document is then the one stored under its identifier, a document
    already stored under that identifier is replaced in place (the keys and
    their order stay the same), a new identifier is appended, and the
    lookup of every other identifier is unchanged. *)
Theorem insert_one_upsert (self : MockCollection) (doc : dict) :
  Py.hashable (get doc "_id") = true ->
  let key := get doc "_id" in
  let self' := fst (insert_one doc self) in
  snd (insert_one doc self) = Ok tt
  /\ assoc_get Py.eq (data self') key = Some doc
  /\ (assoc_mem Py.eq (data self) key = true ->
      map fst (data self') = map fst (data self))
  /\ (assoc_mem Py.eq (data self) key = false ->
      data self' = data self ++ [(key, doc)])
  /\ (forall k, k <> key ->
      assoc_get Py.eq (data self') k = assoc_get Py.eq (data self) k).
Proof.
  intros H. unfold insert_one. rewrite H. simpl.
  split; [reflexivity|]. split; [now apply store_get_set_same|].
  split; [apply store_set_present|]. split; [apply store_set_fresh|].
  intros k N. now apply store_get_set_other.
Qed.

(** ** init_database *)

Lemma find_loop_empty_query docs : find_loop docs [] = Ok docs.
Proof.
  induction docs as [|doc docs IH]; simpl; [reflexivity|].
  now rewrite IH.
Qed.

(** [count_documents({})] is the number of stored documents. *)
Lemma count_documents_all (c : MockCollection) :
  count_documents c (Some []) = Ok (Z.of_nat (List.length (data c))).
Proof.
  unfold count_documents, find, values. rewrite find_loop_empty_query.
  simpl. now rewrite length_map.
Qed.

(** [c.count_documents({})], with the [AttributeError] of a handle that is
    still [None]. *)
Definition count_all (c : option MockCollection) : result Z :=
  match c with
  | Some c => count_documents c (Some [])
  | None => Raise AttributeError
  end.

Definition nonempty (c : option MockCollection) : Prop :=
  exists n, count_all c = Ok n /\ n <> 0%Z.

Lemma nonempty_cons p l : nonempty (Some {| data := p :: l |}).
Proof.
  exists (Z.of_nat (List.length (p :: l))). split.
  - apply count_documents_all.
  - simpl. lia.
Qed.

Definition is_empty (c : MockCollection) : bool :=
  match data c with
  | [] => true
  | _ :: _ => false
  end.

(** The count guard: a collection that holds a document is not seeded. *)
Lemma seed_activities_skipped (g : Globals) :
  nonempty (activities_collection g) -> seed_activities g = (g, Ok tt).
Proof.
  intros [n [Hc Hn]]. destruct g as [cl [a|] t]; simpl in Hc; [|discriminate].
  unfold seed_activities, mbind, on_activities, mlift. simpl. rewrite Hc.
  apply Z.eqb_neq in Hn. now rewrite Hn.
Qed.

Lemma seed_activities_fills (cl : option MongoClient)
    (t : option MockCollection) :
  seed_activities {| _client := cl;
                     activities_collection := Some MockCollection_init;
                     teachers_collection := t |}
  = ({| _client := cl;
        activities_collection := Some seeded_activities;
        teachers_collection := t |}, Ok tt).
Proof. reflexivity. Qed.

Lemma seed_activities_unbound (cl : option MongoClient)
    (t : option MockCollection) :
  seed_activities {| _client := cl;
                     activities_collection := None;
                     teachers_collection := t |}
  = ({| _client := cl;
        activities_collection := None;
        teachers_collection := t |}, Raise AttributeError).
Proof. reflexivity. Qed.

(** The activities block on a bound handle: an empty collection receives
    the seed documents, any other is left as it is. *)
Lemma seed_activities_bound (cl : option MongoClient) (a : MockCollection)
    (t : option MockCollection) :
  seed_activities {| _client := cl;
                     activities_collection := Some a;
                     teachers_collection := t |}
  = ({| _client := cl;
        activities_collection :=
          Some (if is_empty a then seeded_activities else a);
        teachers_collection := t |}, Ok tt).
Proof.
  destruct a as [[|p l]]; unfold is_empty; cbn [data].
  - apply seed_activities_fills.
  - apply seed_activities_skipped. apply nonempty_cons.
Qed.

Lemma ensure_initialized_bound (how : failure) (cl : option MongoClient)
    (a t : MockCollection) :
  ensure_initialized how {| _client := cl;
                            activities_collection := Some a;
                            teachers_collection := Some t |}
  = ({| _client := cl;
        activities_collection := Some a;
        teachers_collection := Some t |}, Ok tt).
Proof. reflexivity. Qed.

(** The client that [_client] names after an attempt. *)
Definition client_after (how : failure) : option MongoClient :=
  match how with
  | constructor_raises => None
  | ping_raises => Some mongo_client
  end.

Lemma ensure_initialized_fresh (how : failure) (g : Globals) :
  activities_collection g = None \/ teachers_collection g = None ->
  _client g = None ->
  ensure_initialized how g
  = ({| _client := client_after how;
        activities_collection := Some MockCollection_init;
        teachers_collection := Some MockCollection_init |}, Ok tt).
Proof.
  destruct g as [cl [a|] [t|]]; simpl; intros [H|H] Hc; try discriminate;
    subst cl; now destruct how.
Qed.

Lemma ensure_initialized_stale (how : failure) (g : Globals)
    (cl : MongoClient) :
  activities_collection g = None \/ teachers_collection g = None ->
  _client g = Some cl ->
  ensure_initialized how g = (g, Ok tt).
Proof.
  destruct g as [c [a|] [t|]]; simpl; intros [H|H] Hc; try discriminate;
    subst c; reflexivity.
Qed.

Section SeedingFacts.
Variable hash_password : string -> string.

Lemma seed_teachers_skipped (g : Globals) :
  nonempty (teachers_collection g) ->
  seed_teachers hash_password g = (g, Ok tt).
Proof.
  intros [n [Hc Hn]]. destruct g as [cl a [t|]]; simpl in Hc; [|discriminate].
  unfold seed_teachers, mbind, on_teachers, mlift. simpl. rewrite Hc.
  apply Z.eqb_neq in Hn. now rewrite Hn.
Qed.

(** The teachers collection after seeding. *)
Definition seeded_teachers : MockCollection :=
  match teachers_collection
          (fst (seed_teachers hash_password
                  {| _client := None;
                     activities_collection := None;
                     teachers_collection := Some MockCollection_init |}))
  with
  | Some c => c
  | None => MockCollection_init
  end.

Lemma seed_teachers_fills (cl : option MongoClient)
    (a : option MockCollection) :
  seed_teachers hash_password
    {| _client := cl;
       activities_collection := a;
       teachers_collection := Some MockCollection_init |}
  = ({| _client := cl;
        activities_collection := a;
        teachers_collection := Some seeded_teachers |}, Ok tt).
Proof. reflexivity. Qed.

Lemma seed_teachers_unbound (cl : option MongoClient)
    (a : option MockCollection) :
  seed_teachers hash_password
    {| _client := cl;
       activities_collection := a;
       teachers_collection := None |}
  = ({| _client := cl;
        activities_collection := a;
        teachers_collection := None |}, Raise AttributeError).
Proof. reflexivity. Qed.

Lemma seed_teachers_bound (cl : option MongoClient)
    (a : option MockCollection) (t : MockCollection) :
  seed_teachers hash_password
    {| _client := cl;
       activities_collection := a;
       teachers_collection := Some t |}
  = ({| _client := cl;
        activities_collection := a;
        teachers_collection :=
          Some (if is_empty t then seeded_teachers else t) |}, Ok tt).
Proof.
  destruct t as [[|p l]]; unfold is_empty; cbn [data].
  - apply seed_teachers_fills.
  - apply seed_teachers_skipped. apply nonempty_cons.
Qed.

Lemma seeded_activities_nonempty : nonempty (Some seeded_activities).
Proof. apply nonempty_cons. Qed.

Lemma seeded_teachers_nonempty : nonempty (Some seeded_teachers).
Proof. apply nonempty_cons. Qed.

Lemma seeded_activities_not_empty : is_empty seeded_activities = false.
Proof. reflexivity. Qed.

Lemma seeded_teachers_not_empty : is_empty seeded_teachers = false.
Proof. reflexivity. Qed.

(** [init_database] evaluated, state by state.  With both handles bound
    each block seeds an empty collection and skips any other.  With a
    handle unbound and no client yet, [_init_db] installs two empty
    collections, which are then seeded.  With a handle unbound and the
    client set, [_init_db] does nothing and the first method call on an
    unbound handle raises [AttributeError]. *)
Lemma init_database_eval (how : failure) (g : Globals) :
  init_database hash_password how g
  = match activities_collection g, teachers_collection g with
    | Some a, Some t =>
        ({| _client := _client g;
            activities_collection :=
              Some (if is_empty a then seeded_activities else a);
            teachers_collection :=
              Some (if is_empty t then seeded_teachers else t) |}, Ok tt)
    | oa, _ =>
        match _client g with
        | None =>
            ({| _client := client_after how;
                activities_collection := Some seeded_activities;
                teachers_collection := Some seeded_teachers |}, Ok tt)
        | Some cl =>
            match oa with
            | Some a =>
                ({| _client := Some cl;
                    activities_collection :=
                      Some (if is_empty a then seeded_activities else a);
                    teachers_collection := None |}, Raise AttributeError)
            | None => (g, Raise AttributeError)
            end
        end
    end.
Proof.
  unfold init_database, mbind.
  destruct g as [[cl|] [a|] [t|]]; cbn [_client activities_collection
    teachers_collection];
    try rewrite ensure_initialized_bound;
    try (rewrite (ensure_initialized_stale how _ cl) by (simpl; auto));
    try (rewrite ensure_initialized_fresh by (simpl; auto));
    try rewrite seed_activities_bound;
    try rewrite seed_activities_unbound;
    try rewrite seed_teachers_bound;
    try rewrite seed_teachers_unbound;
    try reflexivity.
Qed.

(** A handle is unbound only in a process that has not made its
    connection attempt: the two handles are assigned together, by
    [_init_db], after [_client] or instead of it. *)
Definition coherent (g : Globals) : Prop :=
  activities_collection g = None \/ teachers_collection g = None ->
  _client g = None.

(** What one call leaves behind: both handles are bound, both
    collections hold documents, and the call returned normally. *)
Lemma init_database_once (how : failure) (g : Globals) :
  coherent g ->
  snd (init_database hash_password how g) = Ok tt
  /\ nonempty
       (activities_collection (fst (init_database hash_password how g)))
  /\ nonempty
       (teachers_collection (fst (init_database hash_password how g))).
Proof.
  intros H. rewrite init_database_eval. unfold coherent in H.
  destruct g as [cl [[[|pa la]]|] [[[|pt lt]]|]];
    cbn [_client activities_collection teachers_collection] in *;
    try (rewrite H by auto); unfold is_empty; cbn [data fst snd
      activities_collection teachers_collection];
    repeat split;
    first [ apply seeded_activities_nonempty
          | apply seeded_teachers_nonempty
          | apply nonempty_cons ].
Qed.

(** A call on a state whose two collections hold documents changes
    nothing: both count guards skip their block. *)
Lemma init_database_skips (how : failure) (g : Globals) :
  nonempty (activities_collection g) ->
  nonempty (teachers_collection g) ->
  init_database hash_password how g = (g, Ok tt).
Proof.
  intros Ha Ht. unfold init_database, mbind.
  assert (E : ensure_initialized how g = (g, Ok tt)).
  { destruct Ha as [na [Ha _]], Ht as [nt [Ht _]].
    destruct g as [cl [a|] [t|]]; try discriminate. reflexivity. }
  rewrite E. rewrite seed_activities_skipped by assumption.
  now apply seed_teachers_skipped.
Qed.

(** The first call on an untouched process yields [seeded_activities],
    wherever the connection attempt raised. *)
Lemma init_database_activities (how : failure) :
  activities_collection (fst (init_database hash_password how uninitialized))
  = Some seeded_activities.
Proof. now destruct how. Qed.

(** C8.  [init_database] is idempotent, because each seeding block is
    skipped whenever the count of its collection over the empty filter is
    not zero.  From any state in which a handle is unbound only before
    the first connection attempt, the first call returns normally and
    leaves documents in both collections; a second call returns normally
    and leaves the state, hence the document count of the activities and
    of the teachers collection, as the first call left it.  And a call
    that finds the handles bound leaves a collection whose count is not
    zero exactly as it found it, whatever its documents are. *)
Theorem init_database_idempotent (first second : failure) (g : Globals) :
  coherent g ->
  let once := fst (init_database hash_password first g) in
  let twice := fst (init_database hash_password second once) in
  snd (init_database hash_password first g) = Ok tt
  /\ snd (init_database hash_password second once) = Ok tt
  /\ nonempty (activities_collection once)
  /\ nonempty (teachers_collection once)
  /\ count_all (activities_collection twice)
     = count_all (activities_collection once)
  /\ count_all (teachers_collection twice)
     = count_all (teachers_collection once)
  /\ twice = once
  /\ (forall a t,
        activities_collection g = Some a ->
        teachers_collection g = Some t ->
        (nonempty (Some a) -> activities_collection once = Some a)
        /\ (nonempty (Some t) -> teachers_collection once = Some t)).
Proof.
  intros Hg once twice.
  destruct (init_database_once first g Hg) as [Hr [Ha Ht]].
  assert (E : init_database hash_password second once = (once, Ok tt))
    by now apply init_database_skips.
  unfold twice. rewrite E. simpl.
  repeat (split; [assumption || reflexivity|]).
  intros a t Ea Et. unfold once. rewrite init_database_eval.
  rewrite Ea, Et. cbn [fst activities_collection teachers_collection].
  split; intros [n [Hc Hn]].
  - destruct a as [[|p l]]; [|reflexivity].
    unfold count_all in Hc. rewrite count_documents_all in Hc.
    injection Hc as <-. now contradiction Hn.
  - destruct t as [[|p l]]; [|reflexivity].
    unfold count_all in Hc. rewrite count_documents_all in Hc.
    injection Hc as <-. now contradiction Hn.
Qed.

End SeedingFacts.

(** ** Queries over the seeded activities *)

(** Reading a document the way the data model describes it. *)

Definition name_of (doc : dict) : value := get doc "_id".

Definition schedule_field (doc : dict) (field : string) : value :=
  match get doc "schedule_details" with
  | VDict details => get details field
  | _ => VNone
  end.

Definition days_of (doc : dict) : list value :=
  match schedule_field doc "days" with
  | VList days => days
  | _ => []
  end.

Definition time_of (doc : dict) (field : string) : string :=
  match schedule_field doc field with
  | VStr t => t
  | _ => EmptyString
  end.

(** The document has a [schedule_details] dictionary whose [days] is a
    list and whose two times are strings, as every activity has. *)
Definition scheduled (doc : dict) : Prop :=
  exists details days start_time end_time,
    dict_get doc "schedule_details" = Some (VDict details)
    /\ dict_get details "days" = Some (VList days)
    /\ dict_get details "start_time" = Some (VStr start_time)
    /\ dict_get details "end_time" = Some (VStr end_time).

(** At least one candidate is among the days of the document. *)
Definition meets_on (candidates : list value) (doc : dict) : bool :=
  existsb (fun day => existsb (fun d => Py.eq d day) (days_of doc)) candidates.

(** Start not before [lo] and end not after [hi], both as strings. *)
Definition within (lo hi : string) (doc : dict) : bool :=
  negb (String.ltb (time_of doc "start_time") lo)
  && negb (String.ltb hi (time_of doc "end_time")).

Definition days_in (candidates : list value) : dict :=
  [("schedule_details.days", VDict [("$in", VList candidates)])].

Definition time_range (lo hi : string) : dict :=
  [("schedule_details.start_time", VDict [("$gte", VStr lo)]);
   ("schedule_details.end_time", VDict [("$lte", VStr hi)])].

Lemma any_contains_list days candidates :
  Py.any (fun day => Ok (existsb (fun d => Py.eq d day) days)) candidates
  = Ok (existsb (fun day => existsb (fun d => Py.eq d day) days) candidates).
Proof.
  induction candidates as [|c candidates IH]; simpl; [reflexivity|].
  destruct (existsb (fun d => Py.eq d c) days); simpl; [reflexivity|].
  exact IH.
Qed.

Lemma clause_days_in doc candidates :
  scheduled doc ->
  clause doc "schedule_details.days" (VDict [("$in", VList candidates)])
  = Ok (meets_on candidates doc).
Proof.
  intros (details & days & st & et & Hd & Hdays & _ & _).
  unfold clause, meets_on, days_of, schedule_field, get, dict_mem, assoc_mem.
  unfold dict_get in *. simpl. rewrite Hd. simpl.
  unfold get, dict_get. rewrite Hdays. simpl.
  now rewrite any_contains_list.
Qed.

Lemma clause_start_gte doc lo :
  scheduled doc ->
  clause doc "schedule_details.start_time" (VDict [("$gte", VStr lo)])
  = Ok (negb (String.ltb (time_of doc "start_time") lo)).
Proof.
  intros (details & days & st & et & Hd & _ & Hst & _).
  unfold clause, time_of, schedule_field, get, dict_mem, assoc_mem.
  unfold dict_get in *. simpl. rewrite Hd. simpl.
  unfold get, dict_get. now rewrite Hst.
Qed.

Lemma clause_end_lte doc hi :
  scheduled doc ->
  clause doc "schedule_details.end_time" (VDict [("$lte", VStr hi)])
  = Ok (negb (String.ltb hi (time_of doc "end_time"))).
Proof.
  intros (details & days & st & et & Hd & _ & _ & Het).
  unfold clause, time_of, schedule_field, get, dict_mem, assoc_mem.
  unfold dict_get in *. simpl. rewrite Hd. simpl.
  unfold get, dict_get. now rewrite Het.
Qed.

Lemma find_loop_filter (p : dict -> bool) docs query :
  (forall doc, In doc docs -> matches doc query = Ok (p doc)) ->
  find_loop docs query = Ok (filter p docs).
Proof.
  induction docs as [|doc docs IH]; simpl; intros H; [reflexivity|].
  rewrite (H doc) by now left. simpl.
  rewrite IH by (intros d Hd; apply H; now right). reflexivity.
Qed.

(** Over activity-shaped documents the membership filter keeps, in store
    order, the documents with a day among the candidates. *)
Lemma find_days_in (self : MockCollection) (candidates : list value) :
  (forall doc, In doc (values self) -> scheduled doc) ->
  find self (Some (days_in candidates))
  = Ok (filter (meets_on candidates) (values self)).
Proof.
  intros H. unfold find, days_in. apply find_loop_filter.
  intros doc Hin. unfold matches.
  rewrite clause_days_in by now apply H.
  simpl. now destruct (meets_on candidates doc).
Qed.

(** Over activity-shaped documents the two time bounds compare the stored
    strings with the bound strings, character by character. *)
Lemma find_time_range (self : MockCollection) (lo hi : string) :
  (forall doc, In doc (values self) -> scheduled doc) ->
  find self (Some (time_range lo hi))
  = Ok (filter (within lo hi) (values self)).
Proof.
  intros H. unfold find, time_range. apply find_loop_filter.
  intros doc Hin. unfold matches, within.
  rewrite clause_start_gte by now apply H. simpl.
  destruct (String.ltb (time_of doc "start_time") lo); simpl; [reflexivity|].
  rewrite clause_end_lte by now apply H. simpl.
  now destruct (String.ltb hi (time_of doc "end_time")).
Qed.

Lemma seeded_activities_scheduled doc :
  In doc (values seeded_activities) -> scheduled doc.
Proof.
  intros H. vm_compute in H.
  repeat (destruct H as [<- | H];
          [ do 4 eexists; repeat split; reflexivity | ]).
  destruct H.
Qed.

(** The order is the one of the strings, not of the clock: "10:00" is
    below the bound "9:00" and the document is dropped. *)
Example time_bound_is_lexicographic :
  find {| data := [(VStr "Late",
                    [("_id", VStr "Late");
                     ("schedule_details",
                       VDict [("days", VList []);
                              ("start_time", VStr "10:00");
                              ("end_time", VStr "11:00")])])] |}
       (Some (time_range "9:00" "18:00"))
  = Ok [].
Proof. reflexivity. Qed.

(** C2.  On the seeded activities, [find] with
    [{"schedule_details.days": {"$in": ["Monday", "Friday"]}}] returns, in
    store order, exactly the documents whose [days] list shares a day with
    the candidates: Chess Club, Morning Fitness, Basketball Team, Drama
    Club and Debate Team. *)
Theorem find_monday_or_friday :
  let candidates := [VStr "Monday"; VStr "Friday"] in
  exists found,
    find seeded_activities (Some (days_in candidates)) = Ok found
    /\ found = filter (meets_on candidates) (values seeded_activities)
    /\ (forall doc, In doc found <->
          In doc (values seeded_activities) /\
          (In (VStr "Monday") (days_of doc) \/ In (VStr "Friday") (days_of doc)))
    /\ map name_of found
       = [VStr "Chess Club"; VStr "Morning Fitness"; VStr "Basketball Team";
          VStr "Drama Club"; VStr "Debate Team"].
Proof.
  intros candidates. eexists. split.
  - apply find_days_in. exact seeded_activities_scheduled.
  - split; [reflexivity|]. split; [|reflexivity].
    intros doc. rewrite filter_In. split.
    + intros [Hin Hm]. split; [assumption|].
      vm_compute in Hin.
      repeat (destruct Hin as [<- | Hin];
              [ first [ discriminate Hm | left; simpl; tauto
                      | right; simpl; tauto ] | ]).
      destruct Hin.
    + intros [Hin Hd]. split; [assumption|].
      vm_compute in Hin.
      repeat (destruct Hin as [<- | Hin];
              [ first [ reflexivity
                      | exfalso; simpl in Hd; intuition discriminate ]
              | ]).
      destruct Hin.
Qed.

(** C3.  Both time bounds are decided by comparing the stored string
    with the bound string, in the order of strings: on every collection of
    scheduled documents, [find] with
    [{"schedule_details.start_time": {"$gte": lo},
      "schedule_details.end_time": {"$lte": hi}}] keeps exactly the
    documents whose stored start is not below [lo] and whose stored end is
    not above [hi].  On the seeded activities with "09:00" and "18:00"
    the result leaves out Programming Class and contains Chess Club; with
    "09:00" and "17:00" the upper bound also drops the three activities
    that end at "17:30"; and a start stored as "10:00" is below the bound
    "9:00", which no clock would say. *)
Theorem find_nine_to_six :
  (forall (self : MockCollection) (lo hi : string),
     (forall doc, In doc (values self) -> scheduled doc) ->
     find self (Some (time_range lo hi))
     = Ok (filter (fun doc =>
                     negb (String.ltb (time_of doc "start_time") lo)
                     && negb (String.ltb hi (time_of doc "end_time")))
                  (values self)))
  /\ (exists found,
        find seeded_activities (Some (time_range "09:00" "18:00")) = Ok found
        /\ found
           = filter (fun doc =>
                       negb (String.ltb (time_of doc "start_time") "09:00")
                       && negb (String.ltb "18:00" (time_of doc "end_time")))
                    (values seeded_activities)
        /\ ~ In (VStr "Programming Class") (map name_of found)
        /\ In (VStr "Chess Club") (map name_of found)
        /\ map name_of found
           = [VStr "Chess Club"; VStr "Soccer Team"; VStr "Basketball Team";
              VStr "Art Club"; VStr "Drama Club"; VStr "Debate Team";
              VStr "Weekend Robotics Workshop"; VStr "Science Olympiad";
              VStr "Sunday Chess Tournament"])
  /\ (exists found,
        find seeded_activities (Some (time_range "09:00" "17:00")) = Ok found
        /\ ~ In (VStr "Soccer Team") (map name_of found)
        /\ map name_of found
           = [VStr "Chess Club"; VStr "Basketball Team"; VStr "Art Club";
              VStr "Weekend Robotics Workshop"; VStr "Science Olympiad";
              VStr "Sunday Chess Tournament"])
  /\ find {| data := [(VStr "Late",
                       [("_id", VStr "Late");
                        ("schedule_details",
                          VDict [("days", VList []);
                                 ("start_time", VStr "10:00");
                                 ("end_time", VStr "11:00")])])] |}
          (Some (time_range "9:00" "18:00"))
     = Ok [].
Proof.
  split; [exact find_time_range|]. split; [|split].
  - eexists. split.
    + apply find_time_range. exact seeded_activities_scheduled.
    + split; [reflexivity|]. split; [|split; [|reflexivity]].
      * vm_compute. intuition discriminate.
      * vm_compute. now left.
  - eexists. split.
    + apply find_time_range. exact seeded_activities_scheduled.
    + split; [|reflexivity]. vm_compute. intuition discriminate.
  - reflexivity.
Qed.

(** ** Push and pull *)

Definition by_id (name : string) : dict := [("_id", VStr name)].

Definition push (field : string) (v : value) : dict :=
  [("$push", VDict [(field, v)])].

Definition pull (field : string) (v : value) : dict :=
  [("$pull", VDict [(field, v)])].

(** The [participants] of the document stored under [name]. *)
Definition participants_of (self : MockCollection) (name : string)
  : option value :=
  match find_one self (by_id name) with
  | Some doc => dict_get doc "participants"
  | None => None
  end.

(** Pulling a value that was appended to a list without it gives the list
    back, in order. *)
Lemma pull_after_push (l : list value) (v : value) :
  Py.eq v v = true ->
  (forall x, In x l -> Py.eq x v = false) ->
  filter (fun x => Py.ne x v) (l ++ [v]) = l.
Proof.
  intros Hv H. rewrite filter_app. simpl. unfold Py.ne at 2. rewrite Hv.
  simpl. rewrite app_nil_r.
  induction l as [|x l IH]; simpl; [reflexivity|].
  unfold Py.ne at 1. rewrite (H x) by now left. simpl.
  now rewrite IH by (intros y Hy; apply H; now right).
Qed.

Lemma dict_set_set (d : dict) (k : string) (a b : value) :
  dict_set (dict_set d k a) k b = dict_set d k b.
Proof.
  unfold dict_set. induction d as [|[k' v'] d IH]; simpl.
  - now rewrite String.eqb_refl.
  - destruct (String.eqb k' k) eqn:E; simpl; rewrite E; [reflexivity|].
    now rewrite IH.
Qed.

Lemma dict_set_stored (d : dict) (k : string) (v : value) :
  dict_get d k = Some v -> dict_set d k v = d.
Proof.
  unfold dict_get, dict_set. induction d as [|[k' v'] d IH]; simpl.
  - discriminate.
  - destruct (String.eqb k' k) eqn:E; intros H.
    + now injection H as ->.
    + now rewrite IH.
Qed.

Lemma dict_get_set (d : dict) (k : string) (v : value) :
  dict_get (dict_set d k v) k = Some v.
Proof.
  unfold dict_get, dict_set. induction d as [|[k' v'] d IH]; simpl.
  - now rewrite String.eqb_refl.
  - destruct (String.eqb k' k) eqn:E; simpl; now rewrite E.
Qed.

(** On any document whose [field] is a list without [v], the [$push] of
    [v] followed by the [$pull] of [v] gives the document back. *)
Lemma push_then_pull_document (doc : dict) (field : string)
    (l : list value) (v : value) :
  dict_get doc field = Some (VList l) ->
  Py.eq v v = true ->
  (forall x, In x l -> Py.eq x v = false) ->
  let pushed := apply_update (push field v) doc in
  let pulled := apply_update (pull field v) (fst pushed) in
  snd pushed = Ok tt
  /\ dict_get (fst pushed) field = Some (VList (l ++ [v]))
  /\ pulled = (doc, Ok tt).
Proof.
  intros Hl Hv Hx.
  assert (Hpush : apply_update (push field v) doc
                  = (dict_set doc field (VList (l ++ [v])), Ok tt)).
  { unfold apply_update, push, mbind, mlift, get, dict_mem, assoc_mem. simpl.
    unfold dict_mem, assoc_mem, get. fold (dict_get doc field).
    rewrite Hl. simpl. unfold get. now rewrite Hl. }
  simpl. rewrite Hpush. simpl. split; [reflexivity|].
  split; [apply dict_get_set|].
  unfold apply_update, pull, mbind, mlift, get, dict_mem, assoc_mem. simpl.
  rewrite dict_get_set, dict_set_set, pull_after_push by assumption.
  now rewrite dict_set_stored.
Qed.

(** C5.  On the seeded activities, [update_one] with [$push] of
    "x@y.edu" onto the participants of Chess Club appends it after the two
    seeded participants, and [update_one] with [$pull] of the same value
    then gives back the original list, michael then daniel; both calls
    report one modified document and the collection ends as it began. *)
Theorem push_pull_round_trip :
  let pushed :=
    update_one (by_id "Chess Club") (push "participants" (VStr "x@y.edu"))
      seeded_activities in
  let pulled :=
    update_one (by_id "Chess Club") (pull "participants" (VStr "x@y.edu"))
      (fst pushed) in
  snd pushed = Ok {| modified_count := 1 |}
  /\ participants_of (fst pushed) "Chess Club"
     = Some (VList [VStr "michael@mergington.edu";
                    VStr "daniel@mergington.edu"; VStr "x@y.edu"])
  /\ snd pulled = Ok {| modified_count := 1 |}
  /\ participants_of (fst pulled) "Chess Club"
     = Some (VList [VStr "michael@mergington.edu";
                    VStr "daniel@mergington.edu"])
  /\ participants_of (fst pulled) "Chess Club"
     = participants_of seeded_activities "Chess Club"
  /\ fst pulled = seeded_activities.
Proof. vm_compute. repeat split. Qed.

(** ** aggregate *)

(** The pipeline of the distinct-days query. *)
Definition days_pipeline : list dict :=
  [ [("$unwind", VStr "$schedule_details.days")];
    [("$group", VDict [("_id", VStr "$schedule_details.days")])] ].

(** The same two stages on another array field. *)
Definition participants_pipeline : list dict :=
  [ [("$unwind", VStr "$participants")];
    [("$group", VDict [("_id", VStr "$participants")])] ].

(** The recognized shape in the words of the specification: the first
    stage unwinds the weekday array [schedule_details.days], the second
    stage groups. *)
Definition unwinds_days_then_groups (pipeline : list dict) : bool :=
  match pipeline with
  | unwind :: group :: _ =>
      Py.eq (get unwind "$unwind") (VStr "$schedule_details.days")
      && dict_mem group "$group"
  | _ => false
  end.

(** C6.  On the seeded activities, the unwind and group pipeline returns
    one [{"_id": day}] document for each weekday name found in the [days]
    of some document, each once, in ascending order of strings: Friday,
    Monday, Saturday, Sunday, Thursday, Tuesday, Wednesday. *)
Theorem aggregate_distinct_days :
  exists days : list string,
    aggregate seeded_activities days_pipeline
      = Ok (map (fun day => [("_id", VStr day)]) days)
    /\ days = ["Friday"; "Monday"; "Saturday"; "Sunday"; "Thursday";
               "Tuesday"; "Wednesday"]
    /\ StronglySorted (fun a b => String.ltb a b = true) days
    /\ NoDup days
    /\ (forall v : value,
          In v (map VStr days) <->
          exists doc, In doc (values seeded_activities) /\ In v (days_of doc)).
Proof.
  exists ["Friday"; "Monday"; "Saturday"; "Sunday"; "Thursday"; "Tuesday";
          "Wednesday"].
  split; [vm_compute; reflexivity|]. split; [reflexivity|].
  split; [|split].
  - repeat (constructor; [|repeat (constructor; [reflexivity|]); constructor]).
    constructor.
  - repeat (constructor; [simpl; intuition discriminate|]). constructor.
  - intros v. split.
    + intros H.
      assert (Hc : In v (List.concat (map days_of (values seeded_activities)))).
      { simpl in H. vm_compute. intuition (subst; tauto). }
      apply in_concat in Hc. destruct Hc as [l [Hl Hv]].
      apply in_map_iff in Hl. destruct Hl as [doc [<- Hdoc]].
      now exists doc.
    + intros [doc [Hdoc Hv]].
      assert (Hc : In v (List.concat (map days_of (values seeded_activities)))).
      { apply in_concat. exists (days_of doc). split; [|assumption].
        now apply in_map. }
      vm_compute in Hc. simpl. intuition (subst; tauto).
Qed.

(** C1 (counterexample).  The pipeline that unwinds and groups
    [participants] is not the recognized shape, and on the seeded
    activities [aggregate] answers it with the seven weekday documents,
    not with the empty sequence. *)
Lemma aggregate_other_field_not_empty :
  unwinds_days_then_groups participants_pipeline = false
  /\ aggregate seeded_activities participants_pipeline
     = aggregate seeded_activities days_pipeline
  /\ aggregate seeded_activities participants_pipeline <> Ok [].
Proof. vm_compute. repeat split. discriminate. Qed.

(** C1 (amended).  [aggregate] returns the empty sequence for every
    pipeline with fewer than two stages, or whose first stage has no
    truthy [$unwind] entry, or whose second stage has no truthy [$group]
    entry; every other pipeline, whatever field its two stages name and
    whatever stages follow them, gets the answer of the distinct-days
    pipeline. *)
Theorem aggregate_gate (self : MockCollection) (pipeline : list dict) :
  ((List.length pipeline < 2)%nat
   \/ Py.truthy (get (nth 0 pipeline []) "$unwind") = false
   \/ Py.truthy (get (nth 1 pipeline []) "$group") = false ->
   aggregate self pipeline = Ok [])
  /\ (forall unwind group rest,
        pipeline = unwind :: group :: rest ->
        Py.truthy (get unwind "$unwind") = true ->
        Py.truthy (get group "$group") = true ->
        aggregate self pipeline = aggregate self days_pipeline).
Proof.
  split.
  - unfold aggregate. intros [H | [H | H]].
    + apply Nat.leb_gt in H. now rewrite H.
    + rewrite H. now rewrite andb_false_r.
    + rewrite H. now rewrite andb_false_r.
  - intros unwind group rest -> Hu Hg. unfold aggregate. simpl.
    now rewrite Hu, Hg.
Qed.

(** C7 (counterexample).  A document whose identifier is a list cannot be
    used as a key of [self.data]: [insert_one] raises [TypeError] and the
    document is not stored. *)
Lemma insert_one_unhashable_identifier :
  let doc := [("_id", VList [VStr "Chess Club"]);
              ("description", VStr "Learn strategies")] in
  insert_one doc MockCollection_init = (MockCollection_init, Raise TypeError)
  /\ find (fst (insert_one doc MockCollection_init)) None = Ok [].
Proof. split; reflexivity. Qed.

(** ** Instances *)

Lemma seeded_activities_absent (name : string) :
  forallb (fun doc => negb (Py.eq (get doc "_id") (VStr name)))
          (values seeded_activities) = true ->
  absent seeded_activities (VStr name).
Proof.
  intros H doc Hin. rewrite forallb_forall in H.
  apply negb_true_iff. now apply H.
Defined.

Lemma seeded_activities_present (name : string) :
  existsb (fun doc => Py.eq (get doc "_id") (VStr name))
          (values seeded_activities) = true ->
  present seeded_activities (VStr name).
Proof.
  intros H. apply existsb_exists in H. exact H.
Defined.

(** C4 at a filter on an activity that was never seeded. *)
Lemma update_one_missing_id_witness :
  absent seeded_activities (get (by_id "Knitting Circle") "_id")
  /\ update_one (by_id "Knitting Circle")
       (push "participants" (VStr "x@y.edu")) seeded_activities
     = (seeded_activities, Ok {| modified_count := 0 |}).
Proof.
  assert (H : absent seeded_activities (get (by_id "Knitting Circle") "_id")).
  { apply seeded_activities_absent. vm_compute. reflexivity. }
  split; [exact H|].
  apply (update_one_missing_id seeded_activities (by_id "Knitting Circle")
           (push "participants" (VStr "x@y.edu")) H).
Defined.

(** C10 at an update document that only carries [$set]. *)
Lemma update_one_no_operator_witness :
  let update := [("$set", VDict [("max_participants", VInt 13)])] in
  present seeded_activities (get (by_id "Chess Club") "_id")
  /\ dict_mem update "$push" = false
  /\ dict_mem update "$pull" = false
  /\ update_one (by_id "Chess Club") update seeded_activities
     = (seeded_activities, Ok {| modified_count := 1 |}).
Proof.
  intros update.
  assert (H : present seeded_activities (get (by_id "Chess Club") "_id")).
  { apply seeded_activities_present. vm_compute. reflexivity. }
  split; [exact H|]. split; [reflexivity|]. split; [reflexivity|].
  apply (update_one_no_operator seeded_activities (by_id "Chess Club")
           update H eq_refl eq_refl).
Defined.

(** C9 at a filter whose second entry does not match the document that
    carries the identifier. *)
Lemma find_one_id_lookup_witness :
  let query := [("_id", VStr "Chess Club"); ("max_participants", VInt 99)] in
  dict_get query "_id" = Some (VStr "Chess Club")
  /\ find_one seeded_activities query
     = List.find (fun doc => Py.eq (get doc "_id") (VStr "Chess Club"))
         (values seeded_activities)
  /\ option_map name_of (find_one seeded_activities query)
     = Some (VStr "Chess Club").
Proof.
  intros query. split; [reflexivity|]. split.
  - exact (proj1 (find_one_id_lookup seeded_activities query
                    (VStr "Chess Club") eq_refl)).
  - vm_compute. reflexivity.
Defined.

(** C7 (amended) at a second document under the name of a seeded one. *)
Lemma insert_one_upsert_witness :
  let doc := [("_id", VStr "Chess Club"); ("description", VStr "Blitz only")] in
  Py.hashable (get doc "_id") = true
  /\ snd (insert_one doc seeded_activities) = Ok tt
  /\ find_one (fst (insert_one doc seeded_activities)) (by_id "Chess Club")
     = Some doc
  /\ List.length (data (fst (insert_one doc seeded_activities)))
     = List.length (data seeded_activities).
Proof.
  intros doc. split; [reflexivity|].
  split; [exact (proj1 (insert_one_upsert seeded_activities doc eq_refl))|].
  split; vm_compute; reflexivity.
Defined.

(** C1 (amended) at the empty pipeline and at the participants pipeline. *)
Lemma aggregate_gate_witness :
  (List.length (@nil dict) < 2)%nat
  /\ aggregate seeded_activities [] = Ok []
  /\ aggregate seeded_activities participants_pipeline
     = aggregate seeded_activities days_pipeline.
Proof.
  assert (H : (List.length (@nil dict) < 2)%nat) by (simpl; lia).
  split; [exact H|]. split.
  - exact (proj1 (aggregate_gate seeded_activities []) (or_introl H)).
  - exact (proj2 (aggregate_gate seeded_activities participants_pipeline)
             _ _ _ eq_refl eq_refl eq_refl).
Defined.

(** * Further properties of the collection methods *)

(** ** find: selection in store order *)

(** The test [find] applies to one document, as a boolean. *)
Definition selects (query doc : dict) : bool :=
  match matches doc query with
  | Ok true => true
  | _ => false
  end.

(** The filter passes every document without an exception. *)
Definition evaluates (query : dict) (docs : list dict) : Prop :=
  Forall (fun doc => exists b, matches doc query = Ok b) docs.

Lemma find_loop_ok_iff (docs : list dict) (query : dict) (r : list dict) :
  find_loop docs query = Ok r <->
  evaluates query docs /\ r = filter (selects query) docs.
Proof.
  unfold evaluates, selects. revert r.
  induction docs as [|doc docs IH]; simpl; intros r.
  - split.
    + intros H. injection H as <-. split; [constructor | reflexivity].
    + intros [_ ->]. reflexivity.
  - destruct (matches doc query) as [b|e] eqn:M; simpl.
    + destruct (find_loop docs query) as [rest|e] eqn:F; simpl.
      * destruct (IH rest) as [IH1 _]. destruct (IH1 eq_refl) as [Hall ->].
        split.
        -- intros H. injection H as <-. split.
           ++ constructor; [now exists b | assumption].
           ++ now destruct b.
        -- intros [_ ->]. now destruct b.
      * split; [discriminate|]. intros [Hall _].
        apply Forall_inv_tail in Hall.
        destruct (IH (filter (selects query) docs)) as [_ IH2].
        specialize (IH2 (conj Hall eq_refl)). discriminate IH2.
    + split; [discriminate|]. intros [Hall _].
      apply Forall_inv in Hall. destruct Hall as [b Hb]. congruence.
Qed.

(** X1.  [find] returns normally exactly when its test passes every
    stored document without an exception, and the result is then the
    stored documents that pass, in store order: nothing is added,
    reordered or duplicated.  [find()] without argument is [find({})]. *)
Theorem find_ordered_selection (self : MockCollection) (query : dict)
    (r : list dict) :
  (find self (Some query) = Ok r <->
   evaluates query (values self)
   /\ r = filter (selects query) (values self))
  /\ find self None = find self (Some []).
Proof.
  split; [|reflexivity]. unfold find. apply find_loop_ok_iff.
Qed.

(** X2.  With the empty filter, and with no filter at all, [find]
    returns every stored document in store order and [count_documents]
    the number of stored documents. *)
Theorem find_everything (self : MockCollection) :
  find self (Some []) = Ok (values self)
  /\ find self None = Ok (values self)
  /\ count_documents self (Some []) = Ok (Z.of_nat (List.length (data self)))
  /\ count_documents self None = Ok (Z.of_nat (List.length (data self))).
Proof.
  assert (F : find self (Some []) = Ok (values self))
    by apply find_loop_empty_query.
  assert (C : count_documents self None
              = Ok (Z.of_nat (List.length (data self)))).
  { unfold count_documents. change (find self None) with (find self (Some [])).
    rewrite F. simpl. unfold values. now rewrite length_map. }
  repeat split; assumption.
Qed.

(** ** find_one and find on filters of plain values *)

(** The three dotted paths [find] gives a meaning to. *)
Definition operator_path (k : string) : bool :=
  String.eqb k "schedule_details.days"
  || String.eqb k "schedule_details.start_time"
  || String.eqb k "schedule_details.end_time".

(** No key of the filter is one of the three paths. *)
Definition plain (query : dict) : bool :=
  forallb (fun kv => negb (operator_path (fst kv))) query.

(** [doc.get(k) == v] for every entry of the filter. *)
Definition all_fields_equal (query doc : dict) : bool :=
  forallb (fun kv => Py.eq (get doc (fst kv)) (snd kv)) query.

Lemma no_break_all_fields_equal (doc query : dict) :
  no_break doc query = all_fields_equal query doc.
Proof.
  unfold all_fields_equal. induction query as [|[k v] query IH]; simpl.
  - reflexivity.
  - unfold Py.ne. destruct (Py.eq (get doc k) v); simpl; [exact IH|].
    reflexivity.
Qed.

Lemma clause_plain (doc : dict) (k : string) (v : value) :
  operator_path k = false ->
  clause doc k v = Ok (Py.eq (get doc k) v).
Proof.
  unfold operator_path, clause. intros H.
  apply orb_false_iff in H. destruct H as [H H3].
  apply orb_false_iff in H. destruct H as [H1 H2].
  rewrite H1, H2, H3. simpl. unfold Py.ne. now rewrite negb_involutive.
Qed.

Lemma matches_plain (doc query : dict) :
  plain query = true ->
  matches doc query = Ok (all_fields_equal query doc).
Proof.
  unfold plain, all_fields_equal.
  induction query as [|[k v] query IH]; simpl; intros H.
  - reflexivity.
  - apply andb_true_iff in H. destruct H as [Hk H].
    apply negb_true_iff in Hk. rewrite clause_plain by assumption. simpl.
    destruct (Py.eq (get doc k) v); simpl; [now apply IH | reflexivity].
Qed.

Lemma find_one_loop_no_id (items : list (value * dict)) (query : dict) :
  dict_mem query "_id" = false ->
  find_one_loop items query
  = List.find (all_fields_equal query) (map snd items).
Proof.
  intros H. unfold dict_mem, assoc_mem in H.
  induction items as [|[key doc] items IH]; simpl; [reflexivity|].
  unfold id_hit, dict_get.
  destruct (assoc_get String.eqb query "_id"); [discriminate|].
  rewrite no_break_all_fields_equal.
  destruct (all_fields_equal query doc); [reflexivity | exact IH].
Qed.

Lemma find_hd_filter {A : Type} (p : A -> bool) (l : list A) :
  List.find p l = hd_error (filter p l).
Proof.
  induction l as [|x l IH]; simpl; [reflexivity|].
  now destruct (p x).
Qed.

(** X3.  For a filter without [_id], [find_one] returns the first stored
    document all of whose filter fields compare equal, and [None] when
    there is none.  When in addition no key is one of the three operator
    paths, [find] returns all those documents and [find_one] is the first
    element of what [find] returns. *)
Theorem find_one_first_match (self : MockCollection) (query : dict) :
  dict_mem query "_id" = false ->
  find_one self query = List.find (all_fields_equal query) (values self)
  /\ (plain query = true ->
      find self (Some query)
        = Ok (filter (all_fields_equal query) (values self))
      /\ find_one self query
        = hd_error (filter (all_fields_equal query) (values self))).
Proof.
  intros H. unfold find_one, values.
  rewrite find_one_loop_no_id by assumption. split; [reflexivity|].
  intros P. split; [|apply find_hd_filter].
  unfold find. apply find_loop_filter. intros doc _.
  now apply matches_plain.
Qed.

(** X4.  [find_one] knows no operators: given the membership filter of
    [find] it compares the top-level field named
    ["schedule_details.days"] with the operator dictionary itself, so on a
    collection whose documents have no field of that name, as the
    activities have none, it returns [None] whatever the candidates. *)
Theorem find_one_ignores_operators (self : MockCollection)
    (candidates : list value) :
  (forall doc, In doc (values self) ->
               dict_mem doc "schedule_details.days" = false) ->
  find_one self (days_in candidates) = None.
Proof.
  intros H. unfold find_one, values.
  rewrite find_one_loop_no_id by reflexivity.
  destruct (List.find _ (map snd (data self))) as [doc|] eqn:F;
    [|reflexivity].
  apply find_some in F. destruct F as [Hin Heq].
  specialize (H doc Hin). unfold all_fields_equal, days_in in Heq.
  simpl in Heq. unfold get, dict_get in Heq.
  unfold dict_mem, assoc_mem in H.
  destruct (assoc_get String.eqb doc "schedule_details.days");
    [discriminate | discriminate Heq].
Qed.

(** ** find: documents the operator filters pass over, and exceptions *)






Lemma find_loop_raises (pre post : list dict) (doc query : dict) (e : exn) :
  evaluates query pre ->
  matches doc query = Raise e ->
  find_loop (pre ++ doc :: post) query = Raise e.
Proof.
  intros Hpre Hdoc. induction pre as [|d pre IH]; simpl.
  - now rewrite Hdoc.
  - destruct (Forall_inv Hpre) as [b Hb]. rewrite Hb. simpl.
    rewrite IH by exact (Forall_inv_tail Hpre). reflexivity.
Qed.

Definition is_dict (v : value) : bool :=
  match v with
  | VDict _ => true
  | _ => false
  end.

(** X6.  When the first stored document that the membership filter
    cannot test has a [schedule_details] that is not a dictionary, [find]
    raises [AttributeError] (the [.get] on it); the documents after it are
    not looked at and nothing is returned. *)
Theorem find_days_non_dict_schedule (self : MockCollection)
    (pre post : list dict) (doc : dict) (v : value)
    (candidates : list value) :
  values self = pre ++ doc :: post ->
  evaluates (days_in candidates) pre ->
  dict_get doc "schedule_details" = Some v ->
  is_dict v = false ->
  find self (Some (days_in candidates)) = Raise AttributeError.
Proof.
  intros Hv Hpre Hd Hn. unfold find. rewrite Hv.
  apply find_loop_raises; [assumption|].
  unfold days_in, matches, clause. simpl.
  unfold dict_mem, assoc_mem, get. fold (dict_get doc "schedule_details").
  rewrite Hd. simpl. now destruct v.
Qed.

(** X7.  A filter whose first key is one of the three operator paths and
    whose value there is [None] or an integer raises [TypeError] (the
    [in] test on it) on every collection that holds a document, and
    returns the empty list on the empty collection. *)
Theorem find_operator_path_scalar (self : MockCollection) (k : string)
    (v : value) (rest : dict) :
  operator_path k = true ->
  v = VNone \/ (exists n, v = VInt n) ->
  find self (Some ((k, v) :: rest))
  = match data self with
    | [] => Ok []
    | _ :: _ => Raise TypeError
    end.
Proof.
  intros Hk Hv. unfold find, values.
  destruct (data self) as [|[key doc] items]; simpl; [reflexivity|].
  assert (C : clause doc k v = Raise TypeError).
  { unfold operator_path in Hk. unfold clause.
    destruct (String.eqb k "schedule_details.days") eqn:E1.
    - destruct Hv as [-> | [n ->]]; reflexivity.
    - simpl. destruct (String.eqb k "schedule_details.start_time") eqn:E2.
      + destruct Hv as [-> | [n ->]]; reflexivity.
      + simpl. simpl in Hk. rewrite Hk.
        destruct Hv as [-> | [n ->]]; reflexivity. }
  now rewrite C.
Qed.

(** X8.  The time bounds compare values of one kind only: when the first
    stored document keeps its [start_time] as an integer, the range filter
    with string bounds raises [TypeError]. *)
Theorem find_time_range_integer_start (self : MockCollection)
    (key : value) (doc details : dict) (items : list (value * dict))
    (n : Z) (lo hi : string) :
  data self = (key, doc) :: items ->
  dict_get doc "schedule_details" = Some (VDict details) ->
  dict_get details "start_time" = Some (VInt n) ->
  find self (Some (time_range lo hi)) = Raise TypeError.
Proof.
  intros Hs Hd Ht. unfold find, values. rewrite Hs. simpl.
  unfold clause. simpl.
  unfold dict_mem, assoc_mem, get. fold (dict_get doc "schedule_details").
  rewrite Hd. simpl. unfold get. now rewrite Ht.
Qed.

(** ** update_one: the first match and nothing else *)

(** No document among [items] carries the identifier [i]. *)
Definition misses (i : value) (items : list (value * dict)) : Prop :=
  forall d, In d (map snd items) -> Py.eq (get d "_id") i = false.

(** [items] splits at the first document that carries [i]. *)
Definition first_match (i : value) (items pre : list (value * dict))
    (key : value) (doc : dict) (post : list (value * dict)) : Prop :=
  items = pre ++ (key, doc) :: post
  /\ misses i pre
  /\ Py.eq (get doc "_id") i = true.

Lemma first_match_split (i : value) (items : list (value * dict)) :
  misses i items
  \/ exists pre key doc post, first_match i items pre key doc post.
Proof.
  induction items as [|[key doc] items IH].
  - left. intros d [].
  - destruct (Py.eq (get doc "_id") i) eqn:E.
    + right. exists [], key, doc, items. repeat split; [|assumption].
      intros d [].
    + destruct IH as [IH | (pre & k & d & post & -> & Hpre & Hd)].
      * left. intros d [<- | Hd]; [assumption | now apply IH].
      * right. exists ((key, doc) :: pre), k, d, post.
        repeat split; [|assumption].
        intros x [<- | Hx]; [assumption | now apply Hpre].
Qed.

Lemma first_match_unique (i : value) (items : list (value * dict))
    pre key doc post pre' key' doc' post' :
  first_match i items pre key doc post ->
  first_match i items pre' key' doc' post' ->
  pre' = pre /\ key' = key /\ doc' = doc /\ post' = post.
Proof.
  intros (-> & Hpre & Hd) (Hs' & Hpre' & Hd').
  revert pre' Hs' Hpre'.
  induction pre as [|[k d] pre IH]; intros [|[k' d'] pre'] Hs' Hpre';
    simpl in Hs'; inversion Hs'; subst.
  - now repeat split.
  - exfalso. pose proof (Hpre' _ (or_introl eq_refl)) as X. simpl in X.
    congruence.
  - exfalso. pose proof (Hpre _ (or_introl eq_refl)) as X. simpl in X.
    congruence.
  - match goal with
    | E : pre ++ _ = pre' ++ _ |- _ =>
        destruct (IH (fun x Hx => Hpre x (or_intror Hx)) pre' E
                    (fun x Hx => Hpre' x (or_intror Hx)))
          as (-> & -> & -> & ->)
    end.
    now repeat split.
Qed.

Lemma update_one_loop_at (i : value) (items pre post : list (value * dict))
    (key : value) (doc query update : dict) :
  i = get query "_id" ->
  first_match i items pre key doc post ->
  update_one_loop items query update
  = (pre ++ (key, fst (apply_update update doc)) :: post,
     _ <- snd (apply_update update doc) ;; Ok {| modified_count := 1 |}).
Proof.
  intros -> (-> & Hpre & Hd).
  induction pre as [|[k d] pre IH]; simpl.
  - rewrite Hd. now destruct (apply_update update doc).
  - rewrite (Hpre d) by now left.
    rewrite IH by (intros x Hx; apply Hpre; now right). reflexivity.
Qed.

(** X9.  [update_one] works on the first document whose identifier
    matches.  Whatever the filter and the update, and also when the call
    raises, the keys of the store and their order are as before; the call
    reports 0 exactly when no document matches, and the store is then
    unchanged; when a document matches, the call reports 1 or raises;
    and when the update document has no [$push], which is the one
    operation that mutates a list in place, the entries before and after
    the first match are unchanged. *)
Theorem update_one_frame (self : MockCollection) (query update : dict) :
  let self' := fst (update_one query update self) in
  let outcome := snd (update_one query update self) in
  map fst (data self') = map fst (data self)
  /\ (outcome = Ok {| modified_count := 0 |} <->
      absent self (get query "_id"))
  /\ (absent self (get query "_id") -> self' = self)
  /\ (forall pre key doc post,
        first_match (get query "_id") (data self) pre key doc post ->
        (outcome = Ok {| modified_count := 1 |}
         \/ exists e, outcome = Raise e)
        /\ (dict_mem update "$push" = false ->
            exists doc', data self' = pre ++ (key, doc') :: post)).
Proof.
  unfold update_one, absent, values.
  destruct (first_match_split (get query "_id") (data self))
    as [Hm | (pre & key & doc & post & Hf)].
  - fold (misses (get query "_id") (data self)).
    rewrite update_one_loop_absent by exact Hm. simpl.
    split; [reflexivity|]. split; [tauto|]. split; [now destruct self|].
    intros pre key doc post (Hs & _ & Hd).
    rewrite (Hm doc) in Hd; [discriminate|].
    rewrite Hs, map_app. apply in_or_app. right. now left.
  - rewrite (update_one_loop_at _ _ _ _ _ _ _ _ eq_refl Hf). simpl.
    destruct Hf as (Hs & Hpre & Hd).
    split; [rewrite Hs, !map_app; reflexivity|].
    assert (Hin : In doc (map snd (data self))).
    { rewrite Hs, map_app. apply in_or_app. right. now left. }
    split.
    + split.
      * destruct (snd (apply_update update doc)); discriminate.
      * intros Ha. rewrite (Ha doc Hin) in Hd. discriminate.
    + split.
      * intros Ha. rewrite (Ha doc Hin) in Hd. discriminate.
      * intros pre' key' doc' post' (Hs' & Hpre' & Hd').
        destruct (first_match_unique _ _ _ _ _ _ _ _ _ _
                    (conj Hs (conj Hpre Hd)) (conj Hs' (conj Hpre' Hd')))
          as (-> & -> & -> & ->).
        split; [|intros _; now eexists].
        destruct (snd (apply_update update doc)) as [[]|e]; simpl;
          [now left | right; now exists e].
Qed.

(** X10.  Of its filter [update_one] reads [_id] only: every other
    entry is ignored, so the call behaves as with the filter cut down to
    its [_id] ([None] when the filter has none). *)
Theorem update_one_reads_id_only (self : MockCollection)
    (query update : dict) :
  update_one query update self
  = update_one [("_id", get query "_id")] update self.
Proof.
  unfold update_one.
  assert (E : forall items,
    update_one_loop items query update
    = update_one_loop items [("_id", get query "_id")] update).
  { induction items as [|[key doc] items IH]; simpl; [reflexivity|].
    change (get [("_id", get query "_id")] "_id") with (get query "_id").
    now rewrite IH. }
  now rewrite E.
Qed.

(** X11.  When the update document has a [$push] entry, a [$pull] entry
    beside it is never applied: the call behaves as with the [$push] entry
    alone. *)
Theorem update_one_push_shadows_pull (self : MockCollection)
    (query update : dict) :
  dict_mem update "$push" = true ->
  update_one query update self
  = update_one query [("$push", get update "$push")] self.
Proof.
  intros H. unfold update_one.
  assert (A : forall doc,
    apply_update update doc
    = apply_update [("$push", get update "$push")] doc).
  { intros doc. unfold apply_update. rewrite H. reflexivity. }
  assert (E : forall items,
    update_one_loop items query update
    = update_one_loop items query [("$push", get update "$push")]).
  { induction items as [|[key doc] items IH]; simpl; [reflexivity|].
    now rewrite A, IH. }
  now rewrite E.
Qed.

(** ** update_one: what [$push] and [$pull] do to the document *)

Lemma dict_get_set_other (d : dict) (k k' : string) (v : value) :
  k <> k' -> dict_get (dict_set d k v) k' = dict_get d k'.
Proof.
  intros N. unfold dict_get, dict_set.
  induction d as [|[x w] d IH]; simpl.
  - destruct (String.eqb_spec k k'); [contradiction | reflexivity].
  - destruct (String.eqb_spec x k) as [-> | Nx]; simpl.
    + destruct (String.eqb_spec k k'); [contradiction | reflexivity].
    + now rewrite IH.
Qed.

(** The list a [$push] on [field] appends to: the stored list, the empty
    list for a missing field, none for a field that holds anything else. *)
Definition push_target (doc : dict) (field : string) : option (list value) :=
  match dict_get doc field with
  | None => Some []
  | Some (VList l) => Some l
  | Some _ => None
  end.

Lemma apply_update_push (doc : dict) (field : string) (v : value) :
  apply_update (push field v) doc
  = match push_target doc field with
    | Some l => (dict_set doc field (VList (l ++ [v])), Ok tt)
    | None => (doc, Raise AttributeError)
    end.
Proof.
  unfold apply_update, push, push_target, mbind, mlift. simpl.
  unfold dict_mem, assoc_mem, get. fold (dict_get doc field).
  destruct (dict_get doc field) as [w|] eqn:E; simpl.
  - unfold get. rewrite E. now destruct w.
  - unfold get. rewrite dict_get_set. now rewrite dict_set_set.
Qed.

Lemma apply_update_pull (doc : dict) (field : string) (v : value) :
  apply_update (pull field v) doc
  = (match dict_get doc field with
     | Some (VList l) =>
         dict_set doc field (VList (filter (fun x => Py.ne x v) l))
     | _ => doc
     end, Ok tt).
Proof. reflexivity. Qed.

(** X12.  [$push] of one value on the first matching document: the
    call reports one modified document and the field of that document
    then holds the list it held with the value appended at the end, or the
    one-element list when the field was missing; when the field holds
    something that is not a list, the call raises [AttributeError] and
    the store is unchanged. *)
Theorem update_one_push (self : MockCollection) (query : dict)
    (field : string) (v : value) pre key doc post :
  first_match (get query "_id") (data self) pre key doc post ->
  match push_target doc field with
  | Some l =>
      snd (update_one query (push field v) self)
        = Ok {| modified_count := 1 |}
      /\ exists doc',
           nth_error (data (fst (update_one query (push field v) self)))
                     (List.length pre) = Some (key, doc')
           /\ dict_get doc' field = Some (VList (l ++ [v]))
  | None =>
      update_one query (push field v) self = (self, Raise AttributeError)
  end.
Proof.
  intros Hf. unfold update_one.
  rewrite (update_one_loop_at _ _ _ _ _ _ _ _ eq_refl Hf).
  rewrite apply_update_push. destruct Hf as (Hs & _).
  destruct (push_target doc field); simpl.
  - split; [reflexivity|]. eexists. split.
    + rewrite nth_error_app2 by apply Nat.le_refl.
      rewrite Nat.sub_diag. reflexivity.
    + apply dict_get_set.
  - rewrite <- Hs. now destruct self.
Qed.

(** X13.  [$pull] of one value on the first matching document leaves in
    the list of the field exactly the elements that do not compare equal
    to the value, in their order; a missing field or one that holds no
    list is left alone; in every case the call reports one modified
    document. *)
Theorem update_one_pull (self : MockCollection) (query : dict)
    (field : string) (v : value) pre key doc post :
  first_match (get query "_id") (data self) pre key doc post ->
  exists doc',
    update_one query (pull field v) self
    = ({| data := pre ++ (key, doc') :: post |},
       Ok {| modified_count := 1 |})
    /\ (forall l, dict_get doc field = Some (VList l) ->
          dict_get doc' field
            = Some (VList (filter (fun x => negb (Py.eq x v)) l))
          /\ forall k, k <> field -> dict_get doc' k = dict_get doc k)
    /\ ((forall l, dict_get doc field <> Some (VList l)) -> doc' = doc).
Proof.
  intros Hf. unfold update_one.
  rewrite (update_one_loop_at _ _ _ _ _ _ _ _ eq_refl Hf).
  rewrite apply_update_pull. simpl. eexists. split; [reflexivity|]. split.
  - intros l Hl. rewrite Hl. split; [apply dict_get_set|].
    intros k N. apply dict_get_set_other. congruence.
  - intros H. destruct (dict_get doc field) as [[| | |l|]|] eqn:E;
      try reflexivity.
    now destruct (H l).
Qed.

Lemma filter_idempotent {A : Type} (p : A -> bool) (l : list A) :
  filter p (filter p l) = filter p l.
Proof.
  induction l as [|x l IH]; simpl; [reflexivity|].
  destruct (p x) eqn:E; simpl; [rewrite E|]; now rewrite IH.
Qed.

(** X14.  A [$pull] is idempotent: on a field other than [_id], repeating
    the same [update_one] gives the same store and the same outcome as the
    first call. *)
Theorem update_one_pull_idempotent (self : MockCollection) (query : dict)
    (field : string) (v : value) :
  field <> "_id" ->
  update_one query (pull field v) (fst (update_one query (pull field v) self))
  = update_one query (pull field v) self.
Proof.
  intros N. unfold update_one.
  destruct (first_match_split (get query "_id") (data self))
    as [Hm | (pre & key & doc & post & Hf)].
  - rewrite (update_one_loop_absent (data self) query _ Hm). simpl.
    now rewrite (update_one_loop_absent (data self) query _ Hm).
  - rewrite (update_one_loop_at _ _ _ _ _ _ _ _ eq_refl Hf).
    rewrite apply_update_pull. simpl.
    destruct Hf as (Hs & Hpre & Hd).
    set (doc' := match dict_get doc field with
                 | Some (VList l) =>
                     dict_set doc field (VList (filter (fun x => Py.ne x v) l))
                 | _ => doc
                 end).
    assert (Hid : get doc' "_id" = get doc "_id").
    { unfold doc'. destruct (dict_get doc field) as [[| | |l|]|];
        try reflexivity.
      unfold get. now rewrite dict_get_set_other. }
    assert (Hf' : first_match (get query "_id")
                    (pre ++ (key, doc') :: post) pre key doc' post).
    { repeat split; [assumption | now rewrite Hid]. }
    rewrite (update_one_loop_at _ _ _ _ _ _ _ _ eq_refl Hf').
    rewrite apply_update_pull. simpl.
    assert (Hfix : match dict_get doc' field with
                   | Some (VList l) =>
                       dict_set doc' field
                         (VList (filter (fun x => Py.ne x v) l))
                   | _ => doc'
                   end = doc').
    { unfold doc'. destruct (dict_get doc field) as [[| | |l|]|] eqn:E;
        rewrite ?E; try reflexivity.
      rewrite dict_get_set, dict_set_set. now rewrite filter_idempotent. }
    now rewrite Hfix.
Qed.

(** X15.  A [$push] of several fields is not atomic: when the first
    field holds a list and the second holds something that is not a list,
    the call raises [AttributeError] and the first field of the matched
    document holds its list with the value appended all the same. *)
Theorem update_one_push_partial (self : MockCollection) (query : dict)
    (f1 f2 : string) (v1 v2 w : value) (l : list value)
    (more : dict) pre key doc post :
  first_match (get query "_id") (data self) pre key doc post ->
  f1 <> f2 ->
  dict_get doc f1 = Some (VList l) ->
  dict_get doc f2 = Some w ->
  (forall l2, w <> VList l2) ->
  let update := [("$push", VDict ((f1, v1) :: (f2, v2) :: more))] in
  snd (update_one query update self) = Raise AttributeError
  /\ exists doc',
       nth_error (data (fst (update_one query update self)))
                 (List.length pre) = Some (key, doc')
       /\ dict_get doc' f1 = Some (VList (l ++ [v1])).
Proof.
  intros Hf N H1 H2 Hw update. unfold update_one.
  rewrite (update_one_loop_at _ _ _ _ _ _ _ _ eq_refl Hf).
  assert (A : apply_update update doc
              = (dict_set doc f1 (VList (l ++ [v1])), Raise AttributeError)).
  { unfold update, apply_update, mbind, mlift. simpl.
    unfold dict_mem, assoc_mem, get. fold (dict_get doc f1).
    rewrite H1. simpl. unfold get. rewrite H1.
    unfold dict_mem, assoc_mem.
    fold (dict_get (dict_set doc f1 (VList (l ++ [v1]))) f2).
    rewrite dict_get_set_other by assumption. rewrite H2. simpl.
    unfold get. rewrite dict_get_set_other by assumption. rewrite H2.
    destruct w; try reflexivity. now destruct (Hw l0). }
  rewrite A. simpl. split; [reflexivity|]. eexists. split.
  - rewrite nth_error_app2 by apply Nat.le_refl.
    rewrite Nat.sub_diag. reflexivity.
  - apply dict_get_set.
Qed.

(** ** The store stays keyed by identifier *)

(** Every entry of [self.data] is stored under the [_id] its document
    carries, that [_id] can be a key, and no key occurs twice. *)
Definition identified (self : MockCollection) : Prop :=
  Forall (fun kd => dict_get (snd kd) "_id" = Some (fst kd)
                    /\ Py.hashable (fst kd) = true) (data self)
  /\ NoDup (map fst (data self)).

(** The collections a program can build: the empty one, [insert_one] of a
    document that carries [_id], and any [update_one], whether the call
    returns or raises. *)
Inductive reachable : MockCollection -> Prop :=
| reachable_init : reachable MockCollection_init
| reachable_insert (c : MockCollection) (doc : dict) :
    reachable c -> dict_mem doc "_id" = true ->
    reachable (fst (insert_one doc c))
| reachable_update (c : MockCollection) (query update : dict) :
    reachable c -> reachable (fst (update_one query update c)).

Lemma store_mem_keys (V : Type) (d : list (value * V)) (k : value) :
  Py.hashable k = true ->
  assoc_mem Py.eq d k = false -> ~ In k (map fst d).
Proof.
  intros H. unfold assoc_mem. induction d as [|[x w] d IH]; simpl.
  - tauto.
  - destruct (Py.eq x k) eqn:E; [discriminate|].
    intros Hm [-> | Hin]; [|now apply IH].
    rewrite eq_hashable_refl in E by assumption. discriminate.
Qed.

Lemma store_set_entries (d : list (value * dict)) (k : value) (doc : dict)
    (P : value * dict -> Prop) :
  Py.hashable k = true ->
  Forall P d -> P (k, doc) -> Forall P (assoc_set Py.eq d k doc).
Proof.
  intros H Hd Hk. induction d as [|[x w] d IH]; simpl.
  - now constructor.
  - destruct (Py.eq x k) eqn:E.
    + apply eq_hashable_iff in E; [subst x | assumption].
      constructor; [assumption | exact (Forall_inv_tail Hd)].
    + constructor; [exact (Forall_inv Hd) | apply IH].
      exact (Forall_inv_tail Hd).
Qed.

Lemma insert_one_identified (self : MockCollection) (doc : dict) :
  identified self -> dict_mem doc "_id" = true ->
  identified (fst (insert_one doc self)).
Proof.
  intros [Hall Hnd] Hid. unfold insert_one.
  destruct (Py.hashable (get doc "_id")) eqn:H; simpl; [|now split].
  split.
  - apply store_set_entries; try assumption. simpl. split; [|assumption].
    unfold get, dict_mem, assoc_mem in *. fold (dict_get doc "_id") in *.
    now destruct (dict_get doc "_id").
  - cbn [data].
    destruct (assoc_mem Py.eq (data self) (get doc "_id")) eqn:M.
    + now rewrite store_set_present.
    + rewrite store_set_fresh by assumption. rewrite map_app. simpl.
      apply NoDup_app; [assumption | repeat constructor; tauto |].
      intros k Hk [<- | []]. now apply (store_mem_keys _ _ _ H M).
Qed.

(** The update body never changes an [_id] that can be a key. *)
Lemma push_items_keeps_id (items doc : dict) (i : value) :
  dict_get doc "_id" = Some i -> Py.hashable i = true ->
  dict_get (fst (push_items items doc)) "_id" = Some i.
Proof.
  intros Hd Hi. revert doc Hd.
  induction items as [|[k v] items IH]; simpl; intros doc Hd;
    [assumption|].
  destruct (String.eqb_spec k "_id") as [-> | N].
  - unfold dict_mem, assoc_mem. fold (dict_get doc "_id"). rewrite Hd.
    simpl. unfold get. rewrite Hd. now destruct i.
  - assert (H1 : dict_get
                   (if negb (dict_mem doc k) then dict_set doc k (VList [])
                    else doc) "_id" = Some i).
    { destruct (negb (dict_mem doc k)); [|assumption].
      now rewrite dict_get_set_other. }
    destruct (get _ k); try assumption.
    apply IH. now rewrite dict_get_set_other.
Qed.

Lemma pull_items_keeps_id (items doc : dict) (i : value) :
  dict_get doc "_id" = Some i -> Py.hashable i = true ->
  dict_get (pull_items items doc) "_id" = Some i.
Proof.
  intros Hd Hi. revert doc Hd.
  induction items as [|[k v] items IH]; simpl; intros doc Hd;
    [assumption|].
  apply IH. destruct (dict_get doc k) as [[| | |l|]|] eqn:E; try assumption.
  destruct (String.eqb_spec k "_id") as [-> | N].
  - rewrite Hd in E. injection E as ->. discriminate Hi.
  - now rewrite dict_get_set_other.
Qed.

Lemma apply_update_keeps_id (update doc : dict) (i : value) :
  dict_get doc "_id" = Some i -> Py.hashable i = true ->
  dict_get (fst (apply_update update doc)) "_id" = Some i.
Proof.
  intros Hd Hi. unfold apply_update, mbind, mlift.
  destruct (dict_mem update "$push").
  - destruct (Py.items (get update "$push")); simpl; [|assumption].
    now apply push_items_keeps_id.
  - destruct (dict_mem update "$pull"); [|assumption].
    destruct (Py.items (get update "$pull")); simpl; [|assumption].
    now apply pull_items_keeps_id.
Qed.

Lemma update_one_identified (self : MockCollection) (query update : dict) :
  identified self -> identified (fst (update_one query update self)).
Proof.
  intros [Hall Hnd]. unfold update_one.
  destruct (first_match_split (get query "_id") (data self))
    as [Hm | (pre & key & doc & post & Hf)].
  - rewrite update_one_loop_absent by exact Hm. now split.
  - rewrite (update_one_loop_at _ _ _ _ _ _ _ _ eq_refl Hf). simpl.
    destruct Hf as (Hs & _ & _). rewrite Hs in Hall, Hnd. split.
    + apply Forall_app in Hall. destruct Hall as [Hpre Hrest].
      apply Forall_app. split; [assumption|].
      constructor; [|exact (Forall_inv_tail Hrest)].
      destruct (Forall_inv Hrest) as [Hd Hk]. simpl in *.
      split; [now apply apply_update_keeps_id | assumption].
    + cbn [data]. rewrite map_app in *. exact Hnd.
Qed.

(** X16.  Every collection built from the empty one by [insert_one] of
    documents that carry [_id] and by [update_one] calls, including calls
    that raise, is keyed by identifier: each document sits under its own
    [_id], and no identifier is stored twice.  In particular no [$push]
    or [$pull] can change the [_id] of a stored document. *)
Theorem reachable_identified (c : MockCollection) :
  reachable c -> identified c.
Proof.
  induction 1 as [|c doc _ IH Hid|c query update _ IH].
  - split; constructor.
  - now apply insert_one_identified.
  - now apply update_one_identified.
Qed.

Lemma find_one_loop_key (items : list (value * dict)) (i : value) :
  Forall (fun kd => dict_get (snd kd) "_id" = Some (fst kd)
                    /\ Py.hashable (fst kd) = true) items ->
  List.find (fun doc => Py.eq (get doc "_id") i) (map snd items)
  = assoc_get Py.eq items i.
Proof.
  induction items as [|[key doc] items IH]; simpl; intros H;
    [reflexivity|].
  destruct (Forall_inv H) as [Hd _]. simpl in Hd.
  unfold get at 1. rewrite Hd.
  destruct (Py.eq key i); [reflexivity|].
  apply IH. exact (Forall_inv_tail H).
Qed.

(** [self.data.get(k)]: the lookup by key, which raises [TypeError] for
    a key that cannot be hashed. *)
Definition data_get (self : MockCollection) (k : value)
  : result (option dict) :=
  if Py.hashable k then Ok (assoc_get Py.eq (data self) k)
  else Raise TypeError.

Lemma eq_hashable_unhashable (k i : value) :
  Py.hashable k = true -> Py.hashable i = false -> Py.eq k i = false.
Proof. destruct k; try discriminate; destruct i; try discriminate; reflexivity. Qed.

Lemma store_get_unhashable (items : list (value * dict)) (i : value) :
  Forall (fun kd => dict_get (snd kd) "_id" = Some (fst kd)
                    /\ Py.hashable (fst kd) = true) items ->
  Py.hashable i = false ->
  assoc_get Py.eq items i = None.
Proof.
  intros H Hi. induction items as [|[key doc] items IH]; simpl;
    [reflexivity|].
  destruct (Forall_inv H) as [_ Hk]. simpl in Hk.
  rewrite (eq_hashable_unhashable key i Hk Hi).
  apply IH. exact (Forall_inv_tail H).
Qed.

(** X17.  On a collection keyed by identifier, [find_one] with a filter
    that carries [_id] agrees with the dictionary lookup
    [self.data.get(_id)] wherever that lookup is defined: for an [_id]
    that can be hashed the scan returns what the lookup returns; for an
    [_id] that cannot, the lookup raises [TypeError] and the scan returns
    [None]. *)
Theorem find_one_is_key_lookup (self : MockCollection) (query : dict)
    (i : value) :
  identified self ->
  dict_get query "_id" = Some i ->
  (Py.hashable i = true -> data_get self i = Ok (find_one self query))
  /\ (Py.hashable i = false ->
      data_get self i = Raise TypeError /\ find_one self query = None).
Proof.
  intros [Hall _] Hq. unfold find_one, data_get.
  rewrite (find_one_loop_by_id _ _ i Hq).
  rewrite find_one_loop_key by assumption.
  split; intros Hi; rewrite Hi; [reflexivity|].
  split; [reflexivity | now apply store_get_unhashable].
Qed.

(** X18.  Insert then look up: on a collection keyed by identifier,
    after [insert_one] of a document whose [_id] can be a key, [find_one]
    by that [_id] returns the document just inserted, and [find_one] by any
    other identifier returns what it returned before. *)
Theorem insert_one_then_find_one (self : MockCollection) (doc : dict)
    (i : value) :
  identified self ->
  dict_get doc "_id" = Some i ->
  Py.hashable i = true ->
  let self' := fst (insert_one doc self) in
  find_one self' [("_id", i)] = Some doc
  /\ forall j, j <> i ->
       find_one self' [("_id", j)] = find_one self [("_id", j)].
Proof.
  intros Hs Hd Hi self'.
  assert (Hmem : dict_mem doc "_id" = true).
  { unfold dict_mem, assoc_mem. fold (dict_get doc "_id"). now rewrite Hd. }
  assert (Hs' : identified self') by now apply insert_one_identified.
  assert (Hdata : data self' = assoc_set Py.eq (data self) i doc).
  { unfold self', insert_one, get. rewrite Hd, Hi. reflexivity. }
  destruct Hs as [Hall _], Hs' as [Hall' _]. unfold find_one. split.
  - rewrite (find_one_loop_by_id (data self') [("_id", i)] i eq_refl).
    rewrite find_one_loop_key by assumption. rewrite Hdata.
    now apply store_get_set_same.
  - intros j N.
    rewrite (find_one_loop_by_id (data self') [("_id", j)] j eq_refl).
    rewrite (find_one_loop_by_id (data self) [("_id", j)] j eq_refl).
    rewrite !find_one_loop_key by assumption. rewrite Hdata.
    now apply store_get_set_other.
Qed.

(** X19.  [insert_one] of a document whose [_id] can be a key adds one
    to [count_documents({})] when no document is stored under that [_id]
    and leaves the count as it is when one is, which it replaces. *)
Theorem insert_one_count (self : MockCollection) (doc : dict) :
  Py.hashable (get doc "_id") = true ->
  count_documents (fst (insert_one doc self)) (Some [])
  = n <- count_documents self (Some []) ;;
    Ok (if assoc_mem Py.eq (data self) (get doc "_id") then n
        else (n + 1)%Z).
Proof.
  intros H. rewrite !count_documents_all. simpl.
  unfold insert_one. rewrite H. simpl.
  destruct (assoc_mem Py.eq (data self) (get doc "_id")) eqn:M.
  - rewrite <- (length_map fst), store_set_present by assumption.
    now rewrite length_map.
  - rewrite store_set_fresh by assumption. rewrite length_app. simpl.
    f_equal. lia.
Qed.

(** ** aggregate on any collection of scheduled documents *)

(** The order of strings that [<] computes. *)
Definition str_lt (a b : string) : Prop := String.ltb a b = true.

Lemma ascii_compare_refl (a : ascii) : Ascii.compare a a = Eq.
Proof. unfold Ascii.compare. apply N.compare_refl. Qed.

Lemma ascii_compare_lt_trans (a b c : ascii) :
  Ascii.compare a b = Lt -> Ascii.compare b c = Lt -> Ascii.compare a c = Lt.
Proof.
  unfold Ascii.compare. rewrite !N.compare_lt_iff. apply N.lt_trans.
Qed.

Lemma string_compare_lt_trans (x y z : string) :
  String.compare x y = Lt -> String.compare y z = Lt ->
  String.compare x z = Lt.
Proof.
  revert y z. induction x as [|a x IH]; intros [|b y] [|c z]; simpl;
    try discriminate; try reflexivity.
  destruct (Ascii.compare a b) eqn:E1; try discriminate;
    destruct (Ascii.compare b c) eqn:E2; try discriminate.
  - apply Ascii.compare_eq_iff in E1, E2. subst.
    rewrite ascii_compare_refl. apply IH.
  - apply Ascii.compare_eq_iff in E1. subst. now rewrite E2.
  - apply Ascii.compare_eq_iff in E2. subst. now rewrite E1.
  - now rewrite (ascii_compare_lt_trans a b c).
Qed.

Lemma str_lt_trans (x y z : string) : str_lt x y -> str_lt y z -> str_lt x z.
Proof.
  unfold str_lt, String.ltb. intros H1 H2.
  destruct (String.compare x y) eqn:E1; try discriminate.
  destruct (String.compare y z) eqn:E2; try discriminate.
  now rewrite (string_compare_lt_trans x y z).
Qed.

Lemma str_lt_irrefl (x : string) : ~ str_lt x x.
Proof.
  unfold str_lt, String.ltb. pose proof (String.compare_antisym x x) as H.
  destruct (String.compare x x); simpl in H; discriminate.
Qed.

Lemma str_lt_total (x y : string) :
  String.ltb x y = false -> x <> y -> str_lt y x.
Proof.
  unfold str_lt, String.ltb. intros H N.
  rewrite String.compare_antisym.
  destruct (String.compare x y) eqn:E; simpl; try discriminate.
  - now apply String.compare_eq_iff in E.
  - reflexivity.
Qed.

Lemma strongly_sorted_NoDup (l : list string) :
  StronglySorted str_lt l -> NoDup l.
Proof.
  induction 1 as [|x l _ IH Hx]; constructor; [|assumption].
  intros Hin. rewrite Forall_forall in Hx.
  exact (str_lt_irrefl x (Hx x Hin)).
Qed.

(** [sorted] on strings without repetition. *)
Lemma insert_sorted_strings (x : string) (l : list string) :
  StronglySorted str_lt l -> ~ In x l ->
  exists l',
    Py.insert_sorted (VStr x) (map VStr l) = Ok (map VStr l')
    /\ StronglySorted str_lt l'
    /\ (forall y, In y l' <-> y = x \/ In y l).
Proof.
  induction 1 as [|y l Hs IH Hy]; intros Hx; simpl.
  - exists [x]. split; [reflexivity|]. split.
    + repeat constructor.
    + intros y. simpl. intuition.
  - destruct (String.ltb x y) eqn:E; simpl.
    + exists (x :: y :: l). split; [reflexivity|]. split.
      * constructor; [now constructor|].
        constructor; [exact E|].
        rewrite Forall_forall in *. intros z Hz.
        exact (str_lt_trans x y z E (Hy z Hz)).
      * intros z. simpl. intuition.
    + destruct IH as (l' & -> & Hs' & Hin).
      { intros H. apply Hx. now right. }
      simpl. exists (y :: l'). split; [reflexivity|]. split.
      * constructor; [assumption|]. rewrite Forall_forall in *.
        intros z Hz. apply Hin in Hz. destruct Hz as [-> | Hz].
        -- apply str_lt_total; [assumption|]. intros ->. apply Hx. now left.
        -- now apply Hy.
      * intros z. simpl. rewrite Hin. intuition.
Qed.

Lemma sorted_strings (l : list string) :
  NoDup l ->
  exists l',
    Py.sorted (map VStr l) = Ok (map VStr l')
    /\ StronglySorted str_lt l'
    /\ (forall y, In y l' <-> In y l).
Proof.
  induction 1 as [|x l Hx _ IH]; simpl.
  - exists []. split; [reflexivity|]. split; [constructor | tauto].
  - destruct IH as (l1 & -> & Hs & Hin). simpl.
    destruct (insert_sorted_strings x l1 Hs) as (l2 & E & Hs2 & Hin2).
    { now rewrite Hin. }
    exists l2. split; [assumption|]. split; [assumption|].
    intros y. rewrite Hin2, Hin. simpl. intuition.
Qed.

(** [days.add(day)] on strings. *)
Lemma set_add_strings (acc : list string) (x : string) :
  NoDup acc ->
  exists acc',
    Py.set_add (map VStr acc) (VStr x) = Ok (map VStr acc')
    /\ NoDup acc'
    /\ (forall y, In y acc' <-> In y acc \/ y = x).
Proof.
  intros Hnd. unfold Py.set_add. simpl.
  destruct (existsb (fun y => Py.eq y (VStr x)) (map VStr acc)) eqn:E.
  - exists acc. split; [reflexivity|]. split; [assumption|].
    intros y. split; [tauto|]. intros [H | ->]; [assumption|].
    apply existsb_exists in E. destruct E as [v [Hv Hx]].
    apply in_map_iff in Hv. destruct Hv as [z [<- Hz]].
    simpl in Hx. apply String.eqb_eq in Hx. now subst.
  - exists (acc ++ [x]). split; [now rewrite map_app|]. split.
    + apply NoDup_app; [assumption | repeat constructor; tauto |].
      intros y Hy [-> | []].
      assert (X : existsb (fun v => Py.eq v (VStr y)) (map VStr acc) = true).
      { apply existsb_exists. exists (VStr y). split; [now apply in_map|].
        simpl. apply String.eqb_refl. }
      congruence.
    + intros y. rewrite in_app_iff. simpl. intuition.
Qed.

Lemma foldM_set_add_strings (names acc : list string) :
  NoDup acc ->
  exists acc',
    foldM Py.set_add (map VStr names) (map VStr acc) = Ok (map VStr acc')
    /\ NoDup acc'
    /\ (forall y, In y acc' <-> In y acc \/ In y names).
Proof.
  revert acc. induction names as [|x names IH]; intros acc Hnd;
    cbn [map foldM].
  - exists acc. split; [reflexivity|]. split; [assumption|]. simpl. tauto.
  - destruct (set_add_strings acc x Hnd) as (a1 & -> & Hnd1 & Hin1).
    unfold bind.
    destruct (IH a1 Hnd1) as (a2 & E & Hnd2 & Hin2).
    exists a2. split; [assumption|]. split; [assumption|].
    intros y. rewrite Hin2, Hin1. simpl. intuition (subst; auto).
Qed.

(** The [days] of the document, if it has any, is a list of the strings
    [names]; a document without [schedule_details], or whose
    [schedule_details] is a dictionary without [days], has none. *)
Definition names_days (doc : dict) (names : list string) : Prop :=
  (dict_mem doc "schedule_details" = false /\ names = [])
  \/ exists details,
       dict_get doc "schedule_details" = Some (VDict details)
       /\ ((dict_mem details "days" = false /\ names = [])
           \/ dict_get details "days" = Some (VList (map VStr names))).

Lemma names_days_of (doc : dict) (names : list string) :
  names_days doc names -> days_of doc = map VStr names.
Proof.
  unfold names_days, days_of, schedule_field, get, dict_mem, assoc_mem.
  fold (dict_get doc "schedule_details").
  intros [[H ->] | (details & Hd & [[H ->] | H])].
  - now destruct (dict_get doc "schedule_details").
  - rewrite Hd. fold (dict_get details "days") in *.
    now destruct (dict_get details "days").
  - rewrite Hd. now rewrite H.
Qed.

Lemma add_days_strings (doc : dict) (names acc : list string) :
  names_days doc names -> NoDup acc ->
  exists acc',
    add_days (map VStr acc) doc = Ok (map VStr acc')
    /\ NoDup acc'
    /\ (forall y, In y acc' <-> In y acc \/ In y names).
Proof.
  intros Hn Hnd. unfold add_days.
  destruct Hn as [[H ->] | (details & Hd & [[H ->] | H])].
  - rewrite H. exists acc. split; [reflexivity|]. split; [assumption|].
    simpl. tauto.
  - unfold dict_mem, assoc_mem, get. fold (dict_get doc "schedule_details").
    rewrite Hd. simpl. rewrite H.
    exists acc. split; [reflexivity|]. split; [assumption|]. simpl. tauto.
  - unfold dict_mem, assoc_mem, get. fold (dict_get doc "schedule_details").
    rewrite Hd. simpl. unfold dict_mem, assoc_mem.
    fold (dict_get details "days"). rewrite H. simpl.
    now apply foldM_set_add_strings.
Qed.

Lemma foldM_add_days_strings (docs : list dict) (acc : list string) :
  (forall doc, In doc docs -> exists names, names_days doc names) ->
  NoDup acc ->
  exists acc',
    foldM add_days docs (map VStr acc) = Ok (map VStr acc')
    /\ NoDup acc'
    /\ (forall y, In y acc' <->
          In y acc \/ exists doc, In doc docs /\ In (VStr y) (days_of doc)).
Proof.
  revert acc. induction docs as [|doc docs IH]; intros acc H Hnd;
    cbn [foldM].
  - exists acc. split; [reflexivity|]. split; [assumption|].
    intros y. split; [tauto|]. intros [Hy | (d & [] & _)]. assumption.
  - destruct (H doc (or_introl eq_refl)) as [names Hn].
    destruct (add_days_strings doc names acc Hn Hnd)
      as (a1 & -> & Hnd1 & Hin1). unfold bind.
    destruct (IH a1 (fun d Hd => H d (or_intror Hd)) Hnd1)
      as (a2 & E & Hnd2 & Hin2).
    exists a2. split; [assumption|]. split; [assumption|].
    assert (Hof : forall y, In y names <-> In (VStr y) (days_of doc)).
    { intros y. rewrite (names_days_of doc names Hn). split.
      - apply in_map.
      - intros Hy. apply in_map_iff in Hy. destruct Hy as [z [Hz Hin]].
        injection Hz as ->. assumption. }
    intros y. rewrite Hin2, Hin1, Hof. split.
    + intros [[Hy | Hy] | (d & Hd & Hy)].
      * now left.
      * right. exists doc. split; [now left | assumption].
      * right. exists d. split; [now right | assumption].
    + intros [Hy | (d & [<- | Hd] & Hy)].
      * left. now left.
      * left. now right.
      * right. now exists d.
Qed.

(** X20.  On every collection whose documents either have no days or
    have a list of strings as days, the distinct-days pipeline returns
    normally, with one [{"_id": day}] document for each string found in
    the days of some stored document, none twice, in strictly ascending
    order of strings. *)
Theorem aggregate_sorted_distinct (self : MockCollection) :
  (forall doc, In doc (values self) -> exists names, names_days doc names) ->
  exists days : list string,
    aggregate self days_pipeline
      = Ok (map (fun day => [("_id", VStr day)]) days)
    /\ StronglySorted str_lt days
    /\ NoDup days
    /\ (forall d, In d days <->
          exists doc, In doc (values self) /\ In (VStr d) (days_of doc)).
Proof.
  intros H. unfold aggregate. simpl.
  destruct (foldM_add_days_strings (values self) [] H (NoDup_nil _))
    as (set & E & Hnd & Hin).
  simpl in E. rewrite E. simpl.
  destruct (sorted_strings set Hnd) as (days & -> & Hs & Hin2). simpl.
  exists days. split; [now rewrite map_map|]. split; [assumption|].
  split; [now apply strongly_sorted_NoDup|].
  intros d. rewrite Hin2, Hin. simpl. tauto.
Qed.

(** ** aggregate: the only exception *)

Lemma lt_raises_type_error (a b : value) (e : exn) :
  Py.lt a b = Raise e -> e = TypeError.
Proof.
  revert a b e. fix IH 1. intros a b e.
  destruct a as [| z | s | xs | d]; destruct b as [| z' | s' | ys | d'];
    simpl; try (intros H; now inversion H).
  revert ys. induction xs as [|x xs IHxs]; intros [|y ys]; simpl;
    try discriminate.
  destruct (Py.eq x y); [apply IHxs | apply IH].
Qed.

Lemma contains_raises_type_error (c i : value) (e : exn) :
  Py.contains c i = Raise e -> e = TypeError.
Proof.
  destruct c; simpl; try (intros H; now inversion H);
    destruct i; simpl; intros H; now inversion H.
Qed.

Lemma getitem_after_contains (c : value) (k : string) (e : exn) :
  Py.contains c (VStr k) = Ok true ->
  Py.getitem c k = Raise e -> e = TypeError.
Proof.
  destruct c; simpl; try (intros _ H; now inversion H).
  unfold dict_mem, assoc_mem, dict_get.
  destruct (assoc_get String.eqb d k); [discriminate|].
  intros H. inversion H.
Qed.

Lemma foldM_set_add_raises (ds acc : list value) (e : exn) :
  foldM Py.set_add ds acc = Raise e -> e = TypeError.
Proof.
  revert acc. induction ds as [|x ds IH]; intros acc; simpl;
    [discriminate|].
  unfold Py.set_add at 1. destruct (Py.hashable x); simpl.
  - apply IH.
  - intros H. now inversion H.
Qed.

Lemma add_days_raises (days : list value) (doc : dict) (e : exn) :
  add_days days doc = Raise e -> e = TypeError.
Proof.
  unfold add_days. destruct (dict_mem doc "schedule_details");
    [|discriminate].
  destruct (Py.contains (get doc "schedule_details") (VStr "days"))
    as [[|]|e0] eqn:C; simpl.
  - destruct (Py.getitem (get doc "schedule_details") "days") as [ds|e1]
      eqn:G; simpl.
    + destruct (Py.iter ds) as [its|e2] eqn:I; simpl.
      * apply foldM_set_add_raises.
      * destruct ds; simpl in I; inversion I; intros H; now inversion H.
    + intros H. inversion H. subst. exact (getitem_after_contains _ _ _ C G).
  - discriminate.
  - intros H. inversion H. subst. exact (contains_raises_type_error _ _ _ C).
Qed.

Lemma foldM_add_days_raises (docs : list dict) (acc : list value) (e : exn) :
  foldM add_days docs acc = Raise e -> e = TypeError.
Proof.
  revert acc. induction docs as [|doc docs IH]; intros acc; simpl;
    [discriminate|].
  destruct (add_days acc doc) as [acc'|e0] eqn:A; simpl.
  - apply IH.
  - intros H. inversion H. subst. exact (add_days_raises _ _ _ A).
Qed.

Lemma insert_sorted_raises (x : value) (l : list value) (e : exn) :
  Py.insert_sorted x l = Raise e -> e = TypeError.
Proof.
  induction l as [|y l IH]; simpl; [discriminate|].
  destruct (Py.lt x y) as [[|]|e0] eqn:L; simpl.
  - discriminate.
  - destruct (Py.insert_sorted x l); simpl; [discriminate|].
    intros H. inversion H. subst. now apply IH.
  - intros H. inversion H. subst. exact (lt_raises_type_error _ _ _ L).
Qed.

Lemma sorted_raises (s : list value) (e : exn) :
  Py.sorted s = Raise e -> e = TypeError.
Proof.
  induction s as [|x s IH]; simpl; [discriminate|].
  destruct (Py.sorted s) as [r|e0]; simpl.
  - apply insert_sorted_raises.
  - intros H. inversion H. subst. now apply IH.
Qed.

(** X21.  Whatever the stored documents, and for every pipeline that
    is a list of dictionaries, [aggregate] raises nothing but
    [TypeError]: a [schedule_details] or a [days] of the wrong kind, a
    day that cannot be hashed and days that cannot be ordered all end
    there, and no [KeyError] or [AttributeError] comes from the stored
    documents.  (A stage that is not a dictionary is outside the type of
    [pipeline] here.) *)
Theorem aggregate_raises_type_error_only (self : MockCollection)
    (pipeline : list dict) (e : exn) :
  aggregate self pipeline = Raise e -> e = TypeError.
Proof.
  unfold aggregate.
  destruct ((2 <=? List.length pipeline)%nat
            && Py.truthy (get (nth 0 pipeline []) "$unwind")
            && Py.truthy (get (nth 1 pipeline []) "$group"));
    [|discriminate].
  destruct (foldM add_days (values self) []) as [days|e0] eqn:F; simpl.
  - destruct (Py.sorted days) as [r|e1] eqn:S; simpl; [discriminate|].
    intros H. inversion H. subst. exact (sorted_raises _ _ S).
  - intros H. inversion H. subst. exact (foldM_add_days_raises _ _ _ F).
Qed.

(** ** init_database: what each call leaves *)


Section InitDatabaseFacts.
Variable hash_password : string -> string.


(** X22.  [init_database], state by state.  With both handles bound
    it returns normally and never overwrites or adds to a collection that
    holds a document: such a collection is left exactly as it is and an
    empty one receives its seed documents, each collection independently
    of the other.  With a handle unbound and [_client] still [None], both
    collections are created anew and seeded.  With a handle unbound and
    [_client] set, [_init_db] does nothing and the call raises
    [AttributeError] at the first unbound handle, after seeding the
    activities if they are bound and empty. *)
Theorem init_database_result (how : failure) (g : Globals) :
  init_database hash_password how g
  = match activities_collection g, teachers_collection g with
    | Some a, Some t =>
        ({| _client := _client g;
            activities_collection :=
              Some (if is_empty a then seeded_activities else a);
            teachers_collection :=
              Some (if is_empty t then seeded_teachers hash_password
                    else t) |}, Ok tt)
    | oa, _ =>
        match _client g with
        | None =>
            ({| _client := client_after how;
                activities_collection := Some seeded_activities;
                teachers_collection :=
                  Some (seeded_teachers hash_password) |}, Ok tt)
        | Some cl =>
            match oa with
            | Some a =>
                ({| _client := Some cl;
                    activities_collection :=
                      Some (if is_empty a then seeded_activities else a);
                    teachers_collection := None |}, Raise AttributeError)
            | None => (g, Raise AttributeError)
            end
        end
    end.
Proof. apply init_database_eval. Qed.


End InitDatabaseFacts.

(** ** Instances of the further properties *)

Definition chess_sample : dict :=
  [ ("_id", VStr "Chess Club");
    ("participants", VList [VStr "michael@mergington.edu"]);
    ("max_participants", VInt 12) ].

Definition art_sample : dict :=
  [ ("_id", VStr "Art Club");
    ("schedule_details",
      VDict [("days", VList [VStr "Thursday"; VStr "Monday"])]);
    ("participants",
      VList [VStr "amelia@mergington.edu"; VStr "harper@mergington.edu"]);
    ("max_participants", VInt 15) ].

Definition two_clubs : MockCollection :=
  {| data := [ (VStr "Chess Club", chess_sample);
               (VStr "Art Club", art_sample) ] |}.

Lemma two_clubs_art :
  first_match (VStr "Art Club") (data two_clubs)
    [(VStr "Chess Club", chess_sample)] (VStr "Art Club") art_sample [].
Proof.
  split; [reflexivity|]. split; [|reflexivity].
  intros d [<- | []]. reflexivity.
Defined.

Lemma two_clubs_identified : identified two_clubs.
Proof.
  split.
  - repeat (constructor; [split; reflexivity|]). constructor.
  - repeat (constructor; [simpl; intuition discriminate|]). constructor.
Defined.

(** X3 at a filter on the capacity. *)
Lemma find_one_first_match_witness :
  let query := [("max_participants", VInt 15)] in
  dict_mem query "_id" = false
  /\ find_one two_clubs query
     = List.find (all_fields_equal query) (values two_clubs)
  /\ find_one two_clubs query = Some art_sample.
Proof.
  intros query. split; [reflexivity|]. split.
  - exact (proj1 (find_one_first_match two_clubs query eq_refl)).
  - reflexivity.
Defined.

(** X4 on the two sample activities. *)
Lemma find_one_ignores_operators_witness :
  (forall doc, In doc (values two_clubs) ->
               dict_mem doc "schedule_details.days" = false)
  /\ find_one two_clubs (days_in [VStr "Thursday"]) = None.
Proof.
  assert (H : forall doc, In doc (values two_clubs) ->
                          dict_mem doc "schedule_details.days" = false).
  { intros doc [<- | [<- | []]]; reflexivity. }
  split; [exact H|].
  exact (find_one_ignores_operators two_clubs [VStr "Thursday"] H).
Defined.


(** X6 on a document whose schedule is a string. *)
Lemma find_days_non_dict_schedule_witness :
  let doc := [("_id", VStr "Choir");
              ("schedule_details", VStr "Mondays")] in
  let self := {| data := [(VStr "Choir", doc)] |} in
  values self = [] ++ doc :: []
  /\ evaluates (days_in [VStr "Monday"]) []
  /\ dict_get doc "schedule_details" = Some (VStr "Mondays")
  /\ is_dict (VStr "Mondays") = false
  /\ find self (Some (days_in [VStr "Monday"])) = Raise AttributeError.
Proof.
  intros doc self.
  assert (E : evaluates (days_in [VStr "Monday"]) []) by constructor.
  split; [reflexivity|]. split; [exact E|]. split; [reflexivity|].
  split; [reflexivity|].
  exact (find_days_non_dict_schedule self [] [] doc (VStr "Mondays")
           [VStr "Monday"] eq_refl E eq_refl eq_refl).
Defined.

(** X7 at [{"schedule_details.start_time": None}]. *)
Lemma find_operator_path_scalar_witness :
  operator_path "schedule_details.start_time" = true
  /\ (VNone = VNone \/ exists n, VNone = VInt n)
  /\ find two_clubs (Some [("schedule_details.start_time", VNone)])
     = Raise TypeError.
Proof.
  split; [reflexivity|]. split; [now left|].
  exact (find_operator_path_scalar two_clubs "schedule_details.start_time"
           VNone [] eq_refl (or_introl eq_refl)).
Defined.

(** X8 at a start time stored as the integer 9. *)
Lemma find_time_range_integer_start_witness :
  let details := [("start_time", VInt 9); ("end_time", VInt 10)] in
  let doc := [("_id", VStr "Choir"); ("schedule_details", VDict details)] in
  let self := {| data := [(VStr "Choir", doc)] |} in
  data self = (VStr "Choir", doc) :: []
  /\ dict_get doc "schedule_details" = Some (VDict details)
  /\ dict_get details "start_time" = Some (VInt 9)
  /\ find self (Some (time_range "09:00" "18:00")) = Raise TypeError.
Proof.
  intros details doc self. repeat (split; [reflexivity|]).
  exact (find_time_range_integer_start self (VStr "Choir") doc details []
           9 "09:00" "18:00" eq_refl eq_refl eq_refl).
Defined.

(** X11 at an update document with both operators. *)
Lemma update_one_push_shadows_pull_witness :
  let update := [("$pull", VDict [("participants",
                                   VStr "michael@mergington.edu")]);
                 ("$push", VDict [("participants", VStr "x@y.edu")])] in
  dict_mem update "$push" = true
  /\ update_one (by_id "Chess Club") update two_clubs
     = update_one (by_id "Chess Club")
         (push "participants" (VStr "x@y.edu")) two_clubs.
Proof.
  intros update. split; [reflexivity|].
  exact (update_one_push_shadows_pull two_clubs (by_id "Chess Club") update
           eq_refl).
Defined.

(** X12 at a push on the second document. *)
Lemma update_one_push_witness :
  first_match (get (by_id "Art Club") "_id") (data two_clubs)
    [(VStr "Chess Club", chess_sample)] (VStr "Art Club") art_sample []
  /\ snd (update_one (by_id "Art Club") (push "waitlist" (VStr "x@y.edu"))
            two_clubs)
     = Ok {| modified_count := 1 |}
  /\ exists doc',
       nth_error
         (data (fst (update_one (by_id "Art Club")
                       (push "waitlist" (VStr "x@y.edu")) two_clubs))) 1
       = Some (VStr "Art Club", doc')
       /\ dict_get doc' "waitlist" = Some (VList [VStr "x@y.edu"]).
Proof.
  split; [exact two_clubs_art|].
  exact (update_one_push two_clubs (by_id "Art Club") "waitlist"
           (VStr "x@y.edu") _ _ _ _ two_clubs_art).
Defined.

(** X13 at a pull on the second document. *)
Lemma update_one_pull_witness :
  first_match (get (by_id "Art Club") "_id") (data two_clubs)
    [(VStr "Chess Club", chess_sample)] (VStr "Art Club") art_sample []
  /\ exists doc',
       update_one (by_id "Art Club")
         (pull "participants" (VStr "amelia@mergington.edu")) two_clubs
       = ({| data := [(VStr "Chess Club", chess_sample)]
                     ++ (VStr "Art Club", doc') :: [] |},
          Ok {| modified_count := 1 |})
       /\ dict_get doc' "participants"
          = Some (VList [VStr "harper@mergington.edu"]).
Proof.
  split; [exact two_clubs_art|].
  destruct (update_one_pull two_clubs (by_id "Art Club") "participants"
              (VStr "amelia@mergington.edu") _ _ _ _ two_clubs_art)
    as (doc' & E & Hl & _).
  exists doc'. split; [exact E|].
  exact (proj1 (Hl _ eq_refl)).
Defined.

(** X14 at a pull of a participant. *)
Lemma update_one_pull_idempotent_witness :
  "participants" <> "_id"
  /\ update_one (by_id "Art Club")
       (pull "participants" (VStr "amelia@mergington.edu"))
       (fst (update_one (by_id "Art Club")
               (pull "participants" (VStr "amelia@mergington.edu"))
               two_clubs))
     = update_one (by_id "Art Club")
         (pull "participants" (VStr "amelia@mergington.edu")) two_clubs.
Proof.
  assert (N : "participants" <> "_id") by discriminate.
  split; [exact N|].
  exact (update_one_pull_idempotent two_clubs (by_id "Art Club")
           "participants" (VStr "amelia@mergington.edu") N).
Defined.

(** X15 at a push on the participants and on the capacity. *)
Lemma update_one_push_partial_witness :
  let update := [("$push", VDict [("participants", VStr "x@y.edu");
                                  ("max_participants", VInt 1)])] in
  first_match (get (by_id "Art Club") "_id") (data two_clubs)
    [(VStr "Chess Club", chess_sample)] (VStr "Art Club") art_sample []
  /\ "participants" <> "max_participants"
  /\ dict_get art_sample "max_participants" = Some (VInt 15)
  /\ snd (update_one (by_id "Art Club") update two_clubs)
     = Raise AttributeError
  /\ exists doc',
       nth_error (data (fst (update_one (by_id "Art Club") update two_clubs)))
                 1
       = Some (VStr "Art Club", doc')
       /\ dict_get doc' "participants"
          = Some (VList [VStr "amelia@mergington.edu";
                         VStr "harper@mergington.edu"; VStr "x@y.edu"]).
Proof.
  intros update.
  assert (N : "participants" <> "max_participants") by discriminate.
  assert (W : forall l2, VInt 15 <> VList l2) by discriminate.
  split; [exact two_clubs_art|]. split; [exact N|]. split; [reflexivity|].
  exact (update_one_push_partial two_clubs (by_id "Art Club")
           "participants" "max_participants" (VStr "x@y.edu") (VInt 1)
           (VInt 15) _ [] _ _ _ _ two_clubs_art N eq_refl eq_refl W).
Defined.

(** X16 at the collection of one inserted document. *)
Lemma reachable_identified_witness :
  reachable (fst (insert_one art_sample MockCollection_init))
  /\ identified (fst (insert_one art_sample MockCollection_init)).
Proof.
  assert (R : reachable (fst (insert_one art_sample MockCollection_init))).
  { apply reachable_insert; [apply reachable_init | reflexivity]. }
  split; [exact R | exact (reachable_identified _ R)].
Defined.

(** X17 on the two sample activities. *)
Lemma find_one_is_key_lookup_witness :
  identified two_clubs
  /\ dict_get (by_id "Art Club") "_id" = Some (VStr "Art Club")
  /\ Py.hashable (VStr "Art Club") = true
  /\ data_get two_clubs (VStr "Art Club")
     = Ok (find_one two_clubs (by_id "Art Club")).
Proof.
  split; [exact two_clubs_identified|]. split; [reflexivity|].
  split; [reflexivity|].
  exact (proj1 (find_one_is_key_lookup two_clubs (by_id "Art Club")
                  (VStr "Art Club") two_clubs_identified eq_refl) eq_refl).
Defined.

(** X18 at a replacement of the first sample activity. *)
Lemma insert_one_then_find_one_witness :
  let doc := [("_id", VStr "Chess Club"); ("description", VStr "Blitz")] in
  identified two_clubs
  /\ dict_get doc "_id" = Some (VStr "Chess Club")
  /\ Py.hashable (VStr "Chess Club") = true
  /\ find_one (fst (insert_one doc two_clubs)) (by_id "Chess Club") = Some doc.
Proof.
  intros doc. split; [exact two_clubs_identified|].
  split; [reflexivity|]. split; [reflexivity|].
  exact (proj1 (insert_one_then_find_one two_clubs doc (VStr "Chess Club")
                  two_clubs_identified eq_refl eq_refl)).
Defined.

(** X19 at a document with a new name. *)
Lemma insert_one_count_witness :
  let doc := [("_id", VStr "Choir")] in
  Py.hashable (get doc "_id") = true
  /\ count_documents (fst (insert_one doc two_clubs)) (Some [])
     = n <- count_documents two_clubs (Some []) ;;
       Ok (if assoc_mem Py.eq (data two_clubs) (get doc "_id") then n
           else (n + 1)%Z).
Proof.
  intros doc. split; [reflexivity|].
  exact (insert_one_count two_clubs doc eq_refl).
Defined.

(** X20 on the two sample activities, one of them without a schedule. *)
Lemma aggregate_sorted_distinct_witness :
  (forall doc, In doc (values two_clubs) -> exists names, names_days doc names)
  /\ exists days : list string,
       aggregate two_clubs days_pipeline
         = Ok (map (fun day => [("_id", VStr day)]) days)
       /\ StronglySorted str_lt days
       /\ NoDup days
       /\ (forall d, In d days <->
             exists doc, In doc (values two_clubs)
                         /\ In (VStr d) (days_of doc)).
Proof.
  assert (H : forall doc, In doc (values two_clubs) ->
                          exists names, names_days doc names).
  { intros doc [<- | [<- | []]].
    - exists []. left. split; reflexivity.
    - exists ["Thursday"; "Monday"]. right.
      exists [("days", VList [VStr "Thursday"; VStr "Monday"])].
      split; [reflexivity|]. right. reflexivity. }
  split; [exact H|].
  exact (aggregate_sorted_distinct two_clubs H).
Defined.

(** X21 at a document whose schedule is [None]. *)
Lemma aggregate_raises_type_error_only_witness :
  let self := {| data := [(VStr "Choir", [("_id", VStr "Choir");
                                          ("schedule_details", VNone)])] |} in
  aggregate self days_pipeline = Raise TypeError
  /\ TypeError = TypeError.
Proof.
  intros self.
  assert (E : aggregate self days_pipeline = Raise TypeError)
    by reflexivity.
  split; [exact E|].
  exact (aggregate_raises_type_error_only self days_pipeline TypeError E).
Defined.

(** A stand-in for the hasher, for the instances below. *)
Definition sample_hasher (plaintext : string) : string :=
  "$argon2id$" ++ plaintext.

(** The two sample activities bound, the teachers bound and empty. *)
Definition two_clubs_state : Globals :=
  {| _client := Some mongo_client;
     activities_collection := Some two_clubs;
     teachers_collection := Some MockCollection_init |}.


(** C8 at the same state: the two sample activities are not seeded
    over, the empty teachers collection is seeded, and a second call
    changes nothing. *)
Lemma init_database_idempotent_witness :
  let once :=
    fst (init_database sample_hasher ping_raises two_clubs_state) in
  let twice := fst (init_database sample_hasher constructor_raises once) in
  coherent two_clubs_state
  /\ activities_collection once = Some two_clubs
  /\ count_all (teachers_collection once) = Ok 3%Z
  /\ twice = once.
Proof.
  intros once twice.
  assert (H : coherent two_clubs_state).
  { intros [H | H]; discriminate H. }
  split; [exact H|].
  destruct (init_database_idempotent sample_hasher ping_raises
              constructor_raises two_clubs_state H)
    as (_ & _ & _ & _ & _ & _ & E & G).
  split; [|split; [reflexivity | exact E]].
  exact (proj1 (G two_clubs MockCollection_init eq_refl eq_refl)
           (nonempty_cons _ _)).
Defined.

(** C3 on the seeded activities with the upper bound "17:00". *)
Lemma find_nine_to_six_witness :
  (forall doc, In doc (values seeded_activities) -> scheduled doc)
  /\ find seeded_activities (Some (time_range "09:00" "17:00"))
     = Ok (filter (fun doc =>
                     negb (String.ltb (time_of doc "start_time") "09:00")
                     && negb (String.ltb "17:00" (time_of doc "end_time")))
                  (values seeded_activities)).
Proof.
  split; [exact seeded_activities_scheduled|].
  exact (proj1 find_nine_to_six seeded_activities "09:00" "17:00"
           seeded_activities_scheduled).
Defined.
